(** * The PlaceOrder workflow and its constrained types

    A shallow embedding of the order-taking domain
    ([simple-types], [compound-types], [public-types] and the chapter 10
    implementation of the PlaceOrder workflow), with the properties of the
    workflow stated and proved over it.

    Conventions of the embedding.
    - A TypeScript [number] is an IEEE 754 binary64 value: Rocq's primitive
      [float], with its comparisons, product and sum.
    - A TypeScript [string] is a [string] of one-byte characters; an argument
      the code tests against [null] and [undefined] is a [JsString].
    - A union [T | Err] is the sum [T + Err]: [inl] for a value, [inr] for an
      error object.
    - The capabilities handed to the workflow may have effects: they are
      state transformers over an arbitrary world [W], and every step that
      calls one threads the world through. *)

From Stdlib Require Import String Ascii List ZArith Floats Bool Lia.
From Stdlib Require Import DecimalString.
Import ListNotations.

Set Warnings "-inexact-float".

Local Open Scope string_scope.
Local Open Scope list_scope.

(* ================================================================== *)
(** ** The JavaScript values and built-ins the code relies on *)
(* ================================================================== *)

Module JS.

(** A value passed where a [string] is declared: the code compares it with
    [null] and [undefined] before it reads it. *)
Inductive JsString : Type :=
| JsNull
| JsUndefined
| JsStr (s : string).

(** [`${v}`]: the text a template literal inserts for [v]. *)
Definition template (v : JsString) : string :=
  match v with
  | JsNull => "null"
  | JsUndefined => "undefined"
  | JsStr s => s
  end.

(** [[null, undefined, ''].includes(v)] *)
Definition includes_null_undefined_empty (v : JsString) : bool :=
  match v with
  | JsNull => true
  | JsUndefined => true
  | JsStr s => match s with EmptyString => true | String _ _ => false end
  end.

(** [s.startsWith(c)] for a one-character [c]. *)
Definition startsWith (s : string) (c : ascii) : bool :=
  match s with
  | EmptyString => false
  | String a _ => Ascii.eqb a c
  end.

(** The value of a quoted string literal whose source text is [src]: a
    backslash before [n], [t], [r], [b], [f], [v] or [0] denotes a control
    character, and before any other character it is dropped (so the
    literal ['\d'] is the one-character string [d]).  [\x] and [\u]
    escapes are not covered: the code has none. *)
Definition escape_char (c : ascii) : ascii :=
  if Ascii.eqb c "n" then ascii_of_nat 10
  else if Ascii.eqb c "t" then ascii_of_nat 9
  else if Ascii.eqb c "r" then ascii_of_nat 13
  else if Ascii.eqb c "b" then ascii_of_nat 8
  else if Ascii.eqb c "f" then ascii_of_nat 12
  else if Ascii.eqb c "v" then ascii_of_nat 11
  else if Ascii.eqb c "0" then ascii_of_nat 0
  else c.

Fixpoint literal (src : string) : string :=
  match src with
  | EmptyString => EmptyString
  | String c rest =>
      if Ascii.eqb c "\" then
        match rest with
        | EmptyString => EmptyString
        | String e rest' => String (escape_char e) (literal rest')
        end
      else String c (literal rest)
  end.

(** *** Regular expressions

    The fragment the code's patterns are written in: literal characters,
    [.], [\d], and the quantifiers [+], [*], [?] and [{n}]. *)
Inductive Regex : Type :=
| RChr (c : ascii)
| RAny
| RDigit
| RPlus (r : Regex)
| RStar (r : Regex)
| ROpt (r : Regex)
| RRepeat (n : nat) (r : Regex).

(** A pattern is a sequence of quantified atoms. *)
Definition Pattern : Type := list Regex.

Definition is_digit (c : ascii) : bool :=
  (48 <=? nat_of_ascii c)%nat && (nat_of_ascii c <=? 57)%nat.

Definition is_line_terminator (c : ascii) : bool :=
  Ascii.eqb c (ascii_of_nat 10) || Ascii.eqb c (ascii_of_nat 13).

Inductive ParseMode : Type :=
| Normal
| Escaped
| Counting (n : option nat).

(** The atoms read so far, most recent first, and what the next character
    continues. *)
Definition ParseState : Type := (list Regex * ParseMode)%type.

Definition quantify (q : Regex -> Regex) (acc : list Regex) : option ParseState :=
  match acc with
  | [] => None
  | r :: acc' => Some (q r :: acc', Normal)
  end.

Definition parse_step (st : ParseState) (c : ascii) : option ParseState :=
  let (acc, mode) := st in
  match mode with
  | Normal =>
      if Ascii.eqb c "\" then Some (acc, Escaped)
      else if Ascii.eqb c "." then Some (RAny :: acc, Normal)
      else if Ascii.eqb c "+" then quantify RPlus acc
      else if Ascii.eqb c "*" then quantify RStar acc
      else if Ascii.eqb c "?" then quantify ROpt acc
      else if Ascii.eqb c "{" then
        match acc with [] => None | _ :: _ => Some (acc, Counting None) end
      else Some (RChr c :: acc, Normal)
  | Escaped =>
      if Ascii.eqb c "d" then Some (RDigit :: acc, Normal)
      else if is_digit c then None
      else if (65 <=? nat_of_ascii c)%nat && (nat_of_ascii c <=? 122)%nat then None
      else Some (RChr c :: acc, Normal)
  | Counting n =>
      if is_digit c then
        let d := (nat_of_ascii c - 48)%nat in
        Some (acc, Counting (Some (match n with None => d | Some k => 10 * k + d end)%nat))
      else if Ascii.eqb c "}" then
        match n with
        | None => None
        | Some k => quantify (RRepeat k) acc
        end
      else None
  end.

Fixpoint parse_from (st : ParseState) (src : string) : option Pattern :=
  match src with
  | EmptyString =>
      match st with
      | (acc, Normal) => Some (rev acc)
      | _ => None
      end
  | String c rest =>
      match parse_step st c with
      | None => None
      | Some st' => parse_from st' rest
      end
  end.

(** [new RegExp(src)] for a source [src] written in the fragment, [None]
    for any other source.  The four patterns of the code are in the
    fragment ([patterns_compile] below). *)
Definition RegExp (src : string) : option Pattern := parse_from ([], Normal) src.

(** Matching by derivatives: [deriv c r] is what remains to be matched by
    [r] after it has read [c], as a list of alternatives, each a sequence. *)
Fixpoint nullable (r : Regex) : bool :=
  match r with
  | RChr _ | RAny | RDigit => false
  | RPlus r' => nullable r'
  | RStar _ | ROpt _ => true
  | RRepeat n r' => match n with O => true | S _ => nullable r' end
  end.

Fixpoint repeat_alts (deriv_r : list Pattern) (null_r : bool) (r : Regex) (n : nat)
  : list Pattern :=
  match n with
  | O => []
  | S k =>
      map (fun p => p ++ [RRepeat k r]) deriv_r
      ++ (if null_r then repeat_alts deriv_r null_r r k else [])
  end.

Fixpoint deriv (c : ascii) (r : Regex) : list Pattern :=
  match r with
  | RChr a => if Ascii.eqb a c then [[]] else []
  | RAny => if is_line_terminator c then [] else [[]]
  | RDigit => if is_digit c then [[]] else []
  | RPlus r' => map (fun p => p ++ [RStar r']) (deriv c r')
  | RStar r' => map (fun p => p ++ [RStar r']) (deriv c r')
  | ROpt r' => deriv c r'
  | RRepeat n r' => repeat_alts (deriv c r') (nullable r') r' n
  end.

Fixpoint nullable_seq (p : Pattern) : bool :=
  match p with
  | [] => true
  | r :: p' => nullable r && nullable_seq p'
  end.

Fixpoint deriv_seq (c : ascii) (p : Pattern) : list Pattern :=
  match p with
  | [] => []
  | r :: p' =>
      map (fun q => q ++ p') (deriv c r)
      ++ (if nullable r then deriv_seq c p' else [])
  end.

(** Some alternative matches a prefix of [s]. *)
Fixpoint match_prefix (alts : list Pattern) (s : string) : bool :=
  existsb nullable_seq alts
  || match s with
     | EmptyString => false
     | String c rest => match_prefix (flat_map (deriv_seq c) alts) rest
     end.

(** [pattern.test(s)] for a pattern without flags: a match may start at
    any index of [s]. *)
Fixpoint search (p : Pattern) (s : string) : bool :=
  match_prefix [p] s
  || match s with
     | EmptyString => false
     | String _ rest => search p rest
     end.

Definition test (pattern : option Pattern) (v : JsString) : bool :=
  match pattern with
  | None => false
  | Some p => search p (template v)
  end.

(** [Number.isInteger(x)]: [x] is finite and has no fractional part. *)
Definition Number_isInteger (x : float) : bool :=
  match Prim2SF x with
  | S754_zero _ => true
  | S754_infinity _ => false
  | S754_nan => false
  | S754_finite _ m e => (0 <=? e)%Z || (Z.pos m mod 2 ^ (- e) =? 0)%Z
  end.

(** The text of a number inside a template literal
    ([Number.prototype.toString]): the shortest decimal text that reads
    back as the same binary64 value.  The workflow only copies these texts
    into messages, so the conversion is left abstract. *)
Class NumberFormat : Type := Number_toString : float -> string.

(** A length or a bound that is a natural number prints as its decimal
    digits. *)
Definition nat_toString (n : nat) : string :=
  NilEmpty.string_of_uint (Nat.to_uint n).

End JS.
Import JS.

(* ================================================================== *)
(** ** Simple types and constrained types (simple-types) *)
(* ================================================================== *)

(** Every error object carries a tag and a message.  The tags are the
    string literals of the [errType] fields declared across the three
    files. *)
Inductive ErrType : Type :=
| Empty
| TooLong
| TooSmall
| TooBig
| NotInt
| NotDecimal
| DoesNotMatch
| UnknownFormat
| InvalidFormat
| AddressNotFound
| Validation
| Pricing
| RemoteService.

Record Err : Type := mkErr { errType : ErrType; msg : string }.

(** Constrained to be integer / decimal: both are [number]. *)
Definition Int : Type := float.
Definition Decimal : Type := float.

(** The characters of a string argument, read once the argument is known to
    be neither [null] nor [undefined]. *)
Definition chars (v : JsString) : string :=
  match v with
  | JsStr s => s
  | _ => EmptyString
  end.

Module ConstrainedType.

Definition isEmptyString (str : JsString) : bool :=
  includes_null_undefined_empty str.

(** Return Error if input is null, empty, or length > maxLen *)
Definition createString (fieldName : string) (maxLen : nat) (str : JsString)
  : string + Err :=
  if isEmptyString str then
    inr {| errType := Empty;
           msg := fieldName ++ " must not be null or undefined or empty" |}
  else if (maxLen <? String.length (chars str))%nat then
    inr {| errType := TooLong;
           msg := fieldName ++ " must not be more than "
                  ++ nat_toString maxLen ++ " chars" |}
  else inl (chars str).

(** Return None if input is null, empty.  Return error if length > maxLen.
    Return Some if the input is valid.  [None] is the code's [null]. *)
Definition createStringOption (fieldName : string) (maxLen : nat) (str : JsString)
  : option string + Err :=
  match createString fieldName maxLen str with
  | inl s => inl (Some s)
  | inr e =>
      match errType e with
      | Empty => inl None
      | TooLong => inr e
      | _ => inl None
      end
  end.

(** Return Error if input is less than minVal or more than maxVal *)
Definition createInt `{NumberFormat} (fieldName : string) (minVal maxVal i : float)
  : Int + Err :=
  if (i <? minVal)%float then
    inr {| errType := TooSmall;
           msg := Number_toString i ++ ": Must not be less than "
                  ++ Number_toString minVal |}
  else if (maxVal <? i)%float then
    inr {| errType := TooBig;
           msg := Number_toString i ++ ": Must not be greater than "
                  ++ Number_toString maxVal |}
  else if negb (Number_isInteger i) then
    inr {| errType := NotInt; msg := Number_toString i ++ ": Must be integer" |}
  else inl i.

(** Return Error if input is less than minVal or more than maxVal *)
Definition createDecimal `{NumberFormat} (fieldName : string) (minVal maxVal i : float)
  : Decimal + Err :=
  if (i <? minVal)%float then
    inr {| errType := TooSmall;
           msg := Number_toString i ++ ": Must not be less than "
                  ++ Number_toString minVal |}
  else if (maxVal <? i)%float then
    inr {| errType := TooBig;
           msg := Number_toString i ++ ": Must not be greater than "
                  ++ Number_toString maxVal |}
  else if negb (Number_isInteger i) then
    inr {| errType := NotDecimal; msg := Number_toString i ++ ": Must be decimal" |}
  else inl i.

(** Return Error if input is null, empty, or does not match the regex
    pattern *)
Definition createLike (fieldName : string) (pattern : option Pattern) (str : JsString)
  : string + Err :=
  if isEmptyString str then
    inr {| errType := Empty; msg := template str ++ ": Must not be null or empty" |}
  else if negb (test pattern str) then
    inr {| errType := DoesNotMatch;
           msg := template str ++ ": Must not be null or empty" |}
  else inl (chars str).

End ConstrainedType.

Module String50.
Definition t : Type := string.
Definition value (str : t) : string := str.
Definition create (fieldName : string) (str : JsString) : t + Err :=
  ConstrainedType.createString fieldName 50 str.
End String50.

Module EmailAddress.
Definition t : Type := string.
Definition value (str : t) : string := str.
Definition create (fieldName : string) (str : JsString) : t + Err :=
  ConstrainedType.createLike fieldName (RegExp (literal ".+@.+]")) str.
End EmailAddress.

Module ZipCode.
Definition t : Type := string.
Definition value (str : t) : string := str.
Definition create (fieldName : string) (str : JsString) : t + Err :=
  ConstrainedType.createLike fieldName (RegExp (literal "\d{5}")) str.
End ZipCode.

Module OrderId.
Definition t : Type := string.
Definition value (str : t) : string := str.
Definition create (fieldName : string) (str : JsString) : t + Err :=
  ConstrainedType.createString fieldName 50 str.
End OrderId.

Module OrderLineId.
Definition t : Type := string.
Definition value (str : t) : string := str.
Definition create (fieldName : string) (str : JsString) : t + Err :=
  ConstrainedType.createString fieldName 50 str.
End OrderLineId.

(** [{productType: 'widget', code: string}]: the tag is the constructor
    [ProductCode.Widget] below. *)
Module WidgetCode.
Record t : Type := mk { code : string }.
Definition value (widgetCode : t) : string := code widgetCode.
Definition create (fieldName : string) (str : JsString) : t + Err :=
  match ConstrainedType.createLike fieldName (RegExp (literal "W\d{4}")) str with
  | inl c => inl {| code := c |}
  | inr e => inr e
  end.
End WidgetCode.

(** [{productType: 'gizmo', code: string}] *)
Module GizmoCode.
Record t : Type := mk { code : string }.
Definition value (str : t) : string := code str.
Definition create (fieldName : string) (str : JsString) : t + Err :=
  match ConstrainedType.createLike fieldName (RegExp (literal "G\d{3}")) str with
  | inl c => inl {| code := c |}
  | inr e => inr e
  end.
End GizmoCode.

(** A ProductCode is either a Widget or a Gizmo *)
Module ProductCode.
Inductive t : Type :=
| Widget (w : WidgetCode.t)
| Gizmo (g : GizmoCode.t).

Definition value (productCode : t) : string :=
  match productCode with
  | Widget w => WidgetCode.code w
  | Gizmo g => GizmoCode.code g
  end.

Definition create (fieldName : string) (code : string) : t + Err :=
  if startsWith code "W" then
    match WidgetCode.create fieldName (JsStr code) with
    | inl w => inl (Widget w)
    | inr e => inr e
    end
  else if startsWith code "G" then
    match GizmoCode.create fieldName (JsStr code) with
    | inl g => inl (Gizmo g)
    | inr e => inr e
    end
  else
    inr {| errType := UnknownFormat;
           msg := fieldName ++ ": Format not recognized '" ++ code ++ "'" |}.

(** ['...' + p] for a product code [p]: an object without a [toString] of
    its own. *)
Definition toString (productCode : t) : string := "[object Object]".
End ProductCode.

(** [{quantityType: 'Unit', quantity: Int}] *)
Module UnitQuantity.
Record t : Type := mk { quantity : Int }.
Definition value (v : t) : float := quantity v.
Definition create `{NumberFormat} (fieldName : string) (v : float) : t + Err :=
  match ConstrainedType.createInt fieldName 1 1000 v with
  | inl q => inl {| quantity := q |}
  | inr e => inr e
  end.
End UnitQuantity.

(** [{quantityType: 'Kilogram', quantity: Decimal}] *)
Module KilogramQuantity.
Record t : Type := mk { quantity : Decimal }.
Definition value (v : t) : float := quantity v.
Definition create `{NumberFormat} (fieldName : string) (v : float) : t + Err :=
  match ConstrainedType.createDecimal fieldName 0.5 100 v with
  | inl q => inl {| quantity := q |}
  | inr e => inr e
  end.
End KilogramQuantity.

(** A Quantity is either a Unit or a Kilogram *)
Module OrderQuantity.
Inductive t : Type :=
| Unit (u : UnitQuantity.t)
| Kilogram (k : KilogramQuantity.t).

(** [qty.quantity] *)
Definition value (qty : t) : float :=
  match qty with
  | Unit u => UnitQuantity.quantity u
  | Kilogram k => KilogramQuantity.quantity k
  end.

Definition create `{NumberFormat} (fieldName : string) (productCode : ProductCode.t)
  (v : float) : t + Err :=
  match productCode with
  | ProductCode.Widget _ =>
      match UnitQuantity.create fieldName v with
      | inl u => inl (Unit u)
      | inr e => inr e
      end
  | ProductCode.Gizmo _ =>
      match KilogramQuantity.create fieldName v with
      | inl k => inl (Kilogram k)
      | inr e => inr e
      end
  end.
End OrderQuantity.

Module Price.
Definition t : Type := Decimal.
Definition value (v : t) : float := v.
Definition create `{NumberFormat} (v : float) : t + Err :=
  ConstrainedType.createDecimal "Price" 0 1000 v.
Definition multiply `{NumberFormat} (qty : OrderQuantity.t) (price : t) : t + Err :=
  create (OrderQuantity.value qty * price)%float.
End Price.

Module BillingAmount.
Definition t : Type := Decimal.
Definition value (v : t) : float := v.
Definition create `{NumberFormat} (v : float) : t + Err :=
  ConstrainedType.createDecimal "BillingAmount" 0 10000 v.

(** Modelled from the spec: [BillingAmount.sumPrices], which the pricing
    step calls, is not among the definitions of this namespace.  The spec:
    the step "sums all line prices into billing amount", and "billing-amount
    summation re-run[s] the bounded-decimal check on [its] result".  The
    prices are added from the left, starting from zero. *)
Definition sumPrices `{NumberFormat} (prices : list Price.t) : t + Err :=
  create (fold_left (fun total p => (total + p)%float) prices 0%float).
End BillingAmount.

(** Modelled from the spec: [isErr], imported from simple-types by the
    workflow, is not defined there.  The workflow applies it to a value of a
    union [T | Err] to ask whether the value is the error object. *)
Definition isErr {T : Type} (v : T + Err) : bool :=
  match v with
  | inl _ => false
  | inr _ => true
  end.

(** Modelled from the spec: [splitErr], imported from simple-types by the
    workflow, is not defined there.  The spec: the results of all lines are
    collected and "the first collected error is returned"; the successes
    and the errors are each kept in the order of the lines. *)
Fixpoint splitErr {T E : Type} (results : list (T + E)) : list T * list E :=
  match results with
  | [] => ([], [])
  | r :: rest =>
      let (oks, errs) := splitErr rest in
      match r with
      | inl v => (v :: oks, errs)
      | inr e => (oks, e :: errs)
      end
  end.

(* ================================================================== *)
(** ** Compound records (compound-types) *)
(* ================================================================== *)

Module PersonalName.
Record t : Type := mk { firstName : String50.t; lastName : String50.t }.
End PersonalName.

Module CustomerInfo.
Record t : Type := mk { name : PersonalName.t; emailAddress : EmailAddress.t }.
End CustomerInfo.

(** Lines 2 to 4 are declared [String50 | null]. *)
Module Address.
Record t : Type := mk {
  addressLine1 : String50.t;
  addressLine2 : option String50.t;
  addressLine3 : option String50.t;
  addressLine4 : option String50.t;
  city : String50.t;
  zipCode : ZipCode.t
}.
End Address.

(* ================================================================== *)
(** ** Inputs, outputs and errors of the workflow (public-types) *)
(* ================================================================== *)

Module UnvalidatedCustomerInfo.
Record t : Type := mk {
  firstName : string;
  lastName : string;
  emailAddress : string;
  vipStatus : string
}.
End UnvalidatedCustomerInfo.

Module UnvalidatedAddress.
Record t : Type := mk {
  isValidated : bool;
  addressLine1 : string;
  addressLine2 : string;
  addressLine3 : string;
  addressLine4 : string;
  city : string;
  zipCode : string;
  state : string;
  country : string
}.
End UnvalidatedAddress.

Module UnvalidatedOrderLine.
Record t : Type := mk {
  orderLineId : string;
  productCode : string;
  quantity : float
}.
End UnvalidatedOrderLine.

Module UnvalidatedOrder.
Record t : Type := mk {
  orderId : string;
  customerInfo : UnvalidatedCustomerInfo.t;
  shippingAddress : UnvalidatedAddress.t;
  billingAddress : UnvalidatedAddress.t;
  lines : list UnvalidatedOrderLine.t
}.
End UnvalidatedOrder.

(** Event will be created if the Acknowledgment was successfully posted *)
Module OrderAcknowledgmentSent.
Record t : Type := mk { orderId : OrderId.t; emailAddress : EmailAddress.t }.
End OrderAcknowledgmentSent.

Module PricedOrderLine.
Record t : Type := mk {
  orderLineId : OrderLineId.t;
  productCode : ProductCode.t;
  quantity : OrderQuantity.t;
  linePrice : Price.t
}.
End PricedOrderLine.

Module PricedOrder.
Record t : Type := mk {
  orderId : OrderId.t;
  customerInfo : CustomerInfo.t;
  shippingAddress : Address.t;
  billingAddress : Address.t;
  amountToBill : BillingAmount.t;
  lines : list PricedOrderLine.t
}.
End PricedOrder.

(** Event to send to shipping context *)
Definition OrderPlaced : Type := PricedOrder.t.

(** Event to send to billing context.
    Will only be created if the AmountToBill is not zero *)
Module BillableOrderPlaced.
Record t : Type := mk {
  orderId : OrderId.t;
  billingAddress : Address.t;
  amountToBill : BillingAmount.t
}.
End BillableOrderPlaced.

(** The possible events resulting from the PlacedOrder workflow: the union
    [OrderPlaced | BillableOrderPlaced | OrderAcknowledgmentSent], one
    constructor per member. *)
Inductive PlaceOrderEvent : Type :=
| EvOrderPlaced (e : OrderPlaced)
| EvBillableOrderPlaced (e : BillableOrderPlaced.t)
| EvOrderAcknowledgmentSent (e : OrderAcknowledgmentSent.t).

(** [{errType: 'Validation', msg}] and [{errType: 'Pricing', msg}] *)
Definition ValidationError : Type := Err.
Definition createValidationError (m : string) : ValidationError :=
  {| errType := Validation; msg := m |}.

Definition PricingError : Type := Err.
Definition createPricingError (m : string) : PricingError :=
  {| errType := Pricing; msg := m |}.

(** [ValidationError | PricingError | RemoteServiceError], told apart by the
    tag. *)
Definition PlaceOrderError : Type := Err.

(* ================================================================== *)
(** ** The steps of the workflow, as types *)
(* ================================================================== *)

(** [Omit<UnvalidatedAddress, 'isValidated'> & {isValidated: true}]: the same
    fields. *)
Definition CheckedAddress : Type := UnvalidatedAddress.t.

(** [InvalidFormat | AddressNotFound], each an [Err] with its tag. *)
Definition AddressValidationError : Type := Err.

Module ValidatedOrderLine.
Record t : Type := mk {
  orderLineId : OrderLineId.t;
  productCode : ProductCode.t;
  quantity : OrderQuantity.t
}.
End ValidatedOrderLine.

Module ValidatedOrder.
Record t : Type := mk {
  orderId : OrderId.t;
  customerInfo : CustomerInfo.t;
  shippingAddress : Address.t;
  billingAddress : Address.t;
  lines : list ValidatedOrderLine.t
}.
End ValidatedOrder.

Definition HtmlString : Type := string.

Module OrderAcknowledgment.
Record t : Type := mk { emailAddress : EmailAddress.t; letter : HtmlString }.
End OrderAcknowledgment.

Inductive SendResult : Type := Sent | NotSent.

(** *** Computations that call capabilities

    A capability is supplied by the caller and may read and change the
    world.  [M W A] is a computation that, run in a world, returns an [A] and
    the world it leaves.  An [await] is the sequencing of the monad: the
    workflow is one logical task. *)
Definition M (W A : Type) : Type := W -> A * W.

Definition ret {W A : Type} (a : A) : M W A := fun w => (a, w).

Definition bind {W A B : Type} (c : M W A) (k : A -> M W B) : M W B :=
  fun w => let (a, w') := c w in k a w'.

Notation "x <- c ;; k" := (bind c (fun x => k))
  (at level 61, c at next level, right associativity).

(** [xs.map(f)]: [f] is called on the elements from the first to the last. *)
Fixpoint mapM {W A B : Type} (f : A -> M W B) (xs : list A) : M W (list B) :=
  match xs with
  | [] => ret []
  | x :: rest =>
      y <- f x ;;
      ys <- mapM f rest ;;
      ret (y :: ys)
  end.

(** helper to convert an Option into a List *)
Definition listOfOption {T : Type} (opt : option T) : list T :=
  match opt with
  | None => []
  | Some v => [v]
  end.

(* ================================================================== *)
(** ** The implementation of the workflow *)
(* ================================================================== *)

Section Workflow.

Context {W : Type} {fmt : NumberFormat}.

(** The capabilities, as the workflow declares them. *)
Definition CheckProductCodeExists : Type := ProductCode.t -> M W bool.
Definition CheckAddressExists : Type :=
  UnvalidatedAddress.t -> M W (CheckedAddress + AddressValidationError).
Definition GetProductPrice : Type := ProductCode.t -> M W Price.t.
Definition CreateOrderAcknowledgmentLetter : Type := PricedOrder.t -> M W HtmlString.
Definition SendOrderAcknowledgment : Type := OrderAcknowledgment.t -> M W SendResult.

(* --------------------------- ValidateOrder step *)

Definition toCustomerInfo (unvalidatedCustomerInfo : UnvalidatedCustomerInfo.t)
  : CustomerInfo.t + ValidationError :=
  match String50.create "FirstName"
          (JsStr (UnvalidatedCustomerInfo.firstName unvalidatedCustomerInfo)) with
  | inr e => inr (createValidationError (msg e))
  | inl firstName =>
  match String50.create "LastName"
          (JsStr (UnvalidatedCustomerInfo.lastName unvalidatedCustomerInfo)) with
  | inr e => inr (createValidationError (msg e))
  | inl lastName =>
  match String50.create "EmailAddress"
          (JsStr (UnvalidatedCustomerInfo.emailAddress unvalidatedCustomerInfo)) with
  | inr e => inr (createValidationError (msg e))
  | inl emailAddress =>
      inl {| CustomerInfo.name :=
               {| PersonalName.firstName := firstName;
                  PersonalName.lastName := lastName |};
             CustomerInfo.emailAddress := emailAddress |}
  end end end.

Definition toAddress (checkedAddress : CheckedAddress) : Address.t + ValidationError :=
  match String50.create "AddressLine1"
          (JsStr (UnvalidatedAddress.addressLine1 checkedAddress)) with
  | inr e => inr (createValidationError (msg e))
  | inl addressLine1 =>
  match String50.create "AddressLine2"
          (JsStr (UnvalidatedAddress.addressLine2 checkedAddress)) with
  | inr e => inr (createValidationError (msg e))
  | inl addressLine2 =>
  match String50.create "AddressLine3"
          (JsStr (UnvalidatedAddress.addressLine3 checkedAddress)) with
  | inr e => inr (createValidationError (msg e))
  | inl addressLine3 =>
  match String50.create "AddressLine4"
          (JsStr (UnvalidatedAddress.addressLine4 checkedAddress)) with
  | inr e => inr (createValidationError (msg e))
  | inl addressLine4 =>
  match String50.create "AddressLine4"
          (JsStr (UnvalidatedAddress.city checkedAddress)) with
  | inr e => inr (createValidationError (msg e))
  | inl city =>
  match ZipCode.create "AddressLine4"
          (JsStr (UnvalidatedAddress.zipCode checkedAddress)) with
  | inr e => inr (createValidationError (msg e))
  | inl zipCode =>
      inl {| Address.addressLine1 := addressLine1;
             Address.addressLine2 := Some addressLine2;
             Address.addressLine3 := Some addressLine3;
             Address.addressLine4 := Some addressLine4;
             Address.city := city;
             Address.zipCode := zipCode |}
  end end end end end end.

(** Call the checkAddressExists and convert the error to a ValidationError *)
Definition toCheckedAddress (checkAddress : CheckAddressExists)
  (address : UnvalidatedAddress.t) : M W (CheckedAddress + ValidationError) :=
  checkedAddress <- checkAddress address ;;
  match checkedAddress with
  | inr e => ret (inr (createValidationError (msg e)))
  | inl a => ret (inl a)
  end.

Definition toOrderId (orderIdStr : string) : OrderId.t + ValidationError :=
  match OrderId.create "OrderId" (JsStr orderIdStr) with
  | inr e => inr (createValidationError (msg e))
  | inl orderId => inl orderId
  end.

Definition toOrderLineId (orderId : string) : OrderLineId.t + ValidationError :=
  match OrderLineId.create "OrderLineId" (JsStr orderId) with
  | inr e => inr (createValidationError (msg e))
  | inl orderLineId => inl orderLineId
  end.

Definition toProductCode (checkProductCodeExists : CheckProductCodeExists)
  (code : string) : M W (ProductCode.t + ValidationError) :=
  let checkProduct (p : ProductCode.t) : M W (ProductCode.t + ValidationError) :=
    found <- checkProductCodeExists p ;;
    ret (if found then inl p
         else inr (createValidationError ("Invalid: " ++ ProductCode.toString p))) in
  match ProductCode.create "ProductCode" code with
  | inr e => ret (inr (createValidationError (msg e)))
  | inl productCode =>
      checkedProductCode <- checkProduct productCode ;;
      match checkedProductCode with
      | inr e => ret (inr (createValidationError (msg e)))
      | inl p => ret (inl p)
      end
  end.

Definition toOrderQuantity (productCode : ProductCode.t) (quantity : float)
  : OrderQuantity.t + ValidationError :=
  match OrderQuantity.create "OrderQuantity" productCode quantity with
  | inr e => inr (createValidationError (msg e))
  | inl orderQuantity => inl orderQuantity
  end.

Definition toValidateOrderLine (checkProductExists : CheckProductCodeExists)
  (unvalidatedOrderLine : UnvalidatedOrderLine.t)
  : M W (ValidatedOrderLine.t + ValidationError) :=
  match toOrderLineId (UnvalidatedOrderLine.orderLineId unvalidatedOrderLine) with
  | inr e => ret (inr e)
  | inl orderLineId =>
      productCode <- toProductCode checkProductExists
                       (UnvalidatedOrderLine.productCode unvalidatedOrderLine) ;;
      match productCode with
      | inr e => ret (inr e)
      | inl productCode =>
          match toOrderQuantity productCode
                  (UnvalidatedOrderLine.quantity unvalidatedOrderLine) with
          | inr e => ret (inr e)
          | inl quantity =>
              ret (inl {| ValidatedOrderLine.orderLineId := orderLineId;
                          ValidatedOrderLine.productCode := productCode;
                          ValidatedOrderLine.quantity := quantity |})
          end
      end
  end.

Definition validateOrder (checkProductCodeExists : CheckProductCodeExists)
  (checkAddressExists : CheckAddressExists) (unvalidatedOrder : UnvalidatedOrder.t)
  : M W (ValidatedOrder.t + ValidationError) :=
  match toOrderId (UnvalidatedOrder.orderId unvalidatedOrder) with
  | inr e => ret (inr e)
  | inl orderId =>
  match toCustomerInfo (UnvalidatedOrder.customerInfo unvalidatedOrder) with
  | inr e => ret (inr e)
  | inl customerInfo =>
  checkedShippingAddress <-
    toCheckedAddress checkAddressExists
      (UnvalidatedOrder.shippingAddress unvalidatedOrder) ;;
  match checkedShippingAddress with
  | inr e => ret (inr e)
  | inl checkedShippingAddress =>
  match toAddress checkedShippingAddress with
  | inr e => ret (inr e)
  | inl shippingAddress =>
  checkedBillingAddress <-
    toCheckedAddress checkAddressExists
      (UnvalidatedOrder.billingAddress unvalidatedOrder) ;;
  match checkedBillingAddress with
  | inr e => ret (inr e)
  | inl checkedBillingAddress =>
  match toAddress checkedBillingAddress with
  | inr e => ret (inr e)
  | inl billingAddress =>
  results <- mapM (toValidateOrderLine checkProductCodeExists)
               (UnvalidatedOrder.lines unvalidatedOrder) ;;
  let (lines, errs) := splitErr results in
  match errs with
  | e :: _ => ret (inr e)
  | [] =>
      ret (inl {| ValidatedOrder.orderId := orderId;
                  ValidatedOrder.customerInfo := customerInfo;
                  ValidatedOrder.shippingAddress := shippingAddress;
                  ValidatedOrder.billingAddress := billingAddress;
                  ValidatedOrder.lines := lines |})
  end
  end end end end end end.

(* --------------------------- PriceOrder step *)

Definition toPricedOrderLine (getProductPrice : GetProductPrice)
  (validatedOrderLine : ValidatedOrderLine.t) : M W (PricedOrderLine.t + PricingError) :=
  let quantity := ValidatedOrderLine.quantity validatedOrderLine in
  price <- getProductPrice (ValidatedOrderLine.productCode validatedOrderLine) ;;
  match Price.multiply quantity price with
  | inr e => ret (inr {| errType := Pricing; msg := msg e |})
  | inl linePrice =>
      ret (inl {| PricedOrderLine.orderLineId :=
                    ValidatedOrderLine.orderLineId validatedOrderLine;
                  PricedOrderLine.productCode :=
                    ValidatedOrderLine.productCode validatedOrderLine;
                  PricedOrderLine.quantity :=
                    ValidatedOrderLine.quantity validatedOrderLine;
                  PricedOrderLine.linePrice := linePrice |})
  end.

Definition priceOrder (getProductPrice : GetProductPrice)
  (validatedOrder : ValidatedOrder.t) : M W (PricedOrder.t + PricingError) :=
  results <- mapM (toPricedOrderLine getProductPrice)
               (ValidatedOrder.lines validatedOrder) ;;
  let (lines, errs) := splitErr results in
  match errs with
  | e :: _ => ret (inr (createPricingError (msg e)))
  | [] =>
      let prices := map PricedOrderLine.linePrice lines in
      match BillingAmount.sumPrices prices with
      | inr e => ret (inr (createPricingError (msg e)))
      | inl amountToBill =>
          ret (inl {| PricedOrder.orderId := ValidatedOrder.orderId validatedOrder;
                      PricedOrder.customerInfo :=
                        ValidatedOrder.customerInfo validatedOrder;
                      PricedOrder.shippingAddress :=
                        ValidatedOrder.shippingAddress validatedOrder;
                      PricedOrder.billingAddress :=
                        ValidatedOrder.billingAddress validatedOrder;
                      PricedOrder.lines := lines;
                      PricedOrder.amountToBill := amountToBill |})
      end
  end.

(* --------------------------- AcknowledgeOrder step *)

Definition acknowledgeOrder
  (createOrderAcknowledgmentLetter : CreateOrderAcknowledgmentLetter)
  (sendOrderAcknowledgment : SendOrderAcknowledgment) (pricedOrder : PricedOrder.t)
  : M W (option OrderAcknowledgmentSent.t) :=
  letter <- createOrderAcknowledgmentLetter pricedOrder ;;
  let acknowledgment :=
    {| OrderAcknowledgment.emailAddress :=
         CustomerInfo.emailAddress (PricedOrder.customerInfo pricedOrder);
       OrderAcknowledgment.letter := letter |} in
  sendResult <- sendOrderAcknowledgment acknowledgment ;;
  match sendResult with
  | Sent =>
      ret (Some {| OrderAcknowledgmentSent.orderId := PricedOrder.orderId pricedOrder;
                   OrderAcknowledgmentSent.emailAddress :=
                     CustomerInfo.emailAddress (PricedOrder.customerInfo pricedOrder) |})
  | NotSent => ret None
  end.

(* --------------------------- Create events *)

Definition createOrderPlacedEvent (placedOrder : PricedOrder.t) : OrderPlaced :=
  placedOrder.

Definition createBillingEvent (placedOrder : PricedOrder.t)
  : option BillableOrderPlaced.t :=
  let billingAmount := BillingAmount.value (PricedOrder.amountToBill placedOrder) in
  if (0 <? billingAmount)%float then
    Some {| BillableOrderPlaced.orderId := PricedOrder.orderId placedOrder;
            BillableOrderPlaced.billingAddress := PricedOrder.billingAddress placedOrder;
            BillableOrderPlaced.amountToBill := PricedOrder.amountToBill placedOrder |}
  else None.

Definition createEvents (pricedOrder : PricedOrder.t)
  (orderAcknowledgmentEventOpt : option OrderAcknowledgmentSent.t)
  : list PlaceOrderEvent :=
  let acknowledgmentEvents :=
    map EvOrderAcknowledgmentSent (listOfOption orderAcknowledgmentEventOpt) in
  let orderPlacedEvents := [EvOrderPlaced (createOrderPlacedEvent pricedOrder)] in
  let billingEvents :=
    map EvBillableOrderPlaced (listOfOption (createBillingEvent pricedOrder)) in
  acknowledgmentEvents ++ orderPlacedEvents ++ billingEvents.

(* --------------------------- overall workflow *)

Definition placeOrder (checkProductExists : CheckProductCodeExists)
  (checkAddressExists : CheckAddressExists) (getProductPrice : GetProductPrice)
  (createOrderAcknowledgmentLetter : CreateOrderAcknowledgmentLetter)
  (sendOrderAcknowledgment : SendOrderAcknowledgment)
  (unvalidatedOrder : UnvalidatedOrder.t)
  : M W (list PlaceOrderEvent + PlaceOrderError) :=
  validatedOrder <- validateOrder checkProductExists checkAddressExists unvalidatedOrder ;;
  match validatedOrder with
  | inr e => ret (inr e)
  | inl validatedOrder =>
      pricedOrder <- priceOrder getProductPrice validatedOrder ;;
      match pricedOrder with
      | inr e => ret (inr e)
      | inl pricedOrder =>
          acknowledgementOption <-
            acknowledgeOrder createOrderAcknowledgmentLetter sendOrderAcknowledgment
              pricedOrder ;;
          ret (inl (createEvents pricedOrder acknowledgementOption))
      end
  end.

End Workflow.

(* ================================================================== *)
(** ** Properties of capabilities, and an instrumented world *)
(* ================================================================== *)

(** A capability is a function in the mathematical sense when its result
    depends on its argument alone and it leaves the world as it found it. *)
Definition is_function {W A B : Type} (c : A -> M W B) : Prop :=
  exists f : A -> B, forall a w, c a w = (f a, w).

(** The world as the log of the capability calls made so far, most recent
    last. *)
Inductive Call : Type :=
| CallCheckProductCodeExists (p : ProductCode.t)
| CallCheckAddressExists (a : UnvalidatedAddress.t)
| CallGetProductPrice (p : ProductCode.t)
| CallCreateOrderAcknowledgmentLetter (o : PricedOrder.t)
| CallSendOrderAcknowledgment (a : OrderAcknowledgment.t).

Definition Log : Type := list Call.

(** [logged mk f]: the capability that answers as [f] does and records the
    call. *)
Definition logged {A B : Type} (mk : A -> Call) (f : A -> B) : A -> M Log B :=
  fun a log => (f a, log ++ [mk a]).

(** *** Sample data for the worked examples *)

(** A number format to run the examples with: the integral values print as
    their decimal digits, the rest by a placeholder.  No theorem depends on
    it. *)
Definition sample_format : NumberFormat :=
  fun x =>
    match Prim2SF x with
    | S754_zero _ => "0"
    | S754_infinity s => if s then "-Infinity" else "Infinity"
    | S754_nan => "NaN"
    | S754_finite s m e =>
        if Number_isInteger x then
          ((if s then "-" else EmptyString)
           ++ NilZero.string_of_uint (N.to_uint (Z.to_N (Z.shiftl (Z.pos m) e))))%string
        else "<fraction>"
    end.

Definition sample_customer : UnvalidatedCustomerInfo.t :=
  {| UnvalidatedCustomerInfo.firstName := "Ada";
     UnvalidatedCustomerInfo.lastName := "Lovelace";
     UnvalidatedCustomerInfo.emailAddress := "ada@example.com";
     UnvalidatedCustomerInfo.vipStatus := "Normal" |}.

(** An address every line of which is filled in.  Its zip code is one the
    code's zip pattern accepts. *)
Definition sample_address : UnvalidatedAddress.t :=
  {| UnvalidatedAddress.isValidated := false;
     UnvalidatedAddress.addressLine1 := "1 Main Street";
     UnvalidatedAddress.addressLine2 := "Floor 2";
     UnvalidatedAddress.addressLine3 := "Suite 3";
     UnvalidatedAddress.addressLine4 := "Desk 4";
     UnvalidatedAddress.city := "Springfield";
     UnvalidatedAddress.zipCode := "ddddd";
     UnvalidatedAddress.state := "IL";
     UnvalidatedAddress.country := "US" |}.

(** The same address with the optional lines 2 to 4 left empty. *)
Definition sparse_address : UnvalidatedAddress.t :=
  {| UnvalidatedAddress.isValidated := false;
     UnvalidatedAddress.addressLine1 := "1 Main Street";
     UnvalidatedAddress.addressLine2 := EmptyString;
     UnvalidatedAddress.addressLine3 := EmptyString;
     UnvalidatedAddress.addressLine4 := EmptyString;
     UnvalidatedAddress.city := "Springfield";
     UnvalidatedAddress.zipCode := "ddddd";
     UnvalidatedAddress.state := "IL";
     UnvalidatedAddress.country := "US" |}.

Definition sample_line (id code : string) (qty : float) : UnvalidatedOrderLine.t :=
  {| UnvalidatedOrderLine.orderLineId := id;
     UnvalidatedOrderLine.productCode := code;
     UnvalidatedOrderLine.quantity := qty |}.

Definition sample_order (id : string) (lines : list UnvalidatedOrderLine.t)
  : UnvalidatedOrder.t :=
  {| UnvalidatedOrder.orderId := id;
     UnvalidatedOrder.customerInfo := sample_customer;
     UnvalidatedOrder.shippingAddress := sample_address;
     UnvalidatedOrder.billingAddress := sample_address;
     UnvalidatedOrder.lines := lines |}.

(** Capabilities that record their calls: every product exists, every
    address checks, every product costs [price], and the acknowledgment is
    sent or not as [sends] says. *)
Definition log_checkProduct : ProductCode.t -> M Log bool :=
  logged CallCheckProductCodeExists (fun _ => true).

Definition log_checkAddress
  : UnvalidatedAddress.t -> M Log (CheckedAddress + AddressValidationError) :=
  logged CallCheckAddressExists (fun a => inl a).

Definition log_getPrice (price : float) : ProductCode.t -> M Log Price.t :=
  logged CallGetProductPrice (fun _ => price).

Definition log_createLetter : PricedOrder.t -> M Log HtmlString :=
  logged CallCreateOrderAcknowledgmentLetter (fun _ => "<p>Thank you</p>").

Definition log_send (sends : bool) : OrderAcknowledgment.t -> M Log SendResult :=
  logged CallSendOrderAcknowledgment (fun _ => if sends then Sent else NotSent).

(** The code of a widget and of a gizmo, given as already validated. *)
Definition widget_W1234 : ProductCode.t :=
  ProductCode.Widget {| WidgetCode.code := "W1234" |}.
Definition gizmo_G123 : ProductCode.t :=
  ProductCode.Gizmo {| GizmoCode.code := "G123" |}.

Definition sample_customerInfo : CustomerInfo.t :=
  {| CustomerInfo.name :=
       {| PersonalName.firstName := "Ada"; PersonalName.lastName := "Lovelace" |};
     CustomerInfo.emailAddress := "ada@example.com" |}.

Definition sample_validated_address : Address.t :=
  {| Address.addressLine1 := "1 Main Street";
     Address.addressLine2 := Some "Floor 2";
     Address.addressLine3 := Some "Suite 3";
     Address.addressLine4 := Some "Desk 4";
     Address.city := "Springfield";
     Address.zipCode := "ddddd" |}.

Definition validated_line (id : string) (units : float) : ValidatedOrderLine.t :=
  {| ValidatedOrderLine.orderLineId := id;
     ValidatedOrderLine.productCode := widget_W1234;
     ValidatedOrderLine.quantity := OrderQuantity.Unit {| UnitQuantity.quantity := units |} |}.

Definition validated_order (lines : list ValidatedOrderLine.t) : ValidatedOrder.t :=
  {| ValidatedOrder.orderId := "order-1";
     ValidatedOrder.customerInfo := sample_customerInfo;
     ValidatedOrder.shippingAddress := sample_validated_address;
     ValidatedOrder.billingAddress := sample_validated_address;
     ValidatedOrder.lines := lines |}.

(** The tag of the error a constructor returned, if it returned one. *)
Definition outcome {T : Type} (r : T + Err) : option ErrType :=
  match r with
  | inl _ => None
  | inr e => Some (errType e)
  end.

Definition priced_line (id : string) (units price : float) : PricedOrderLine.t :=
  {| PricedOrderLine.orderLineId := id;
     PricedOrderLine.productCode := widget_W1234;
     PricedOrderLine.quantity := OrderQuantity.Unit {| UnitQuantity.quantity := units |};
     PricedOrderLine.linePrice := price |}.

Definition priced_order (lines : list PricedOrderLine.t) (amount : float)
  : PricedOrder.t :=
  {| PricedOrder.orderId := "order-1";
     PricedOrder.customerInfo := sample_customerInfo;
     PricedOrder.shippingAddress := sample_validated_address;
     PricedOrder.billingAddress := sample_validated_address;
     PricedOrder.amountToBill := amount;
     PricedOrder.lines := lines |}.

(** *** Vocabulary of the statements *)

(** The priced line keeps the identifier, the product code and the quantity
    of the validated line. *)
Definition same_line (v : ValidatedOrderLine.t) (p : PricedOrderLine.t) : Prop :=
  PricedOrderLine.orderLineId p = ValidatedOrderLine.orderLineId v
  /\ PricedOrderLine.productCode p = ValidatedOrderLine.productCode v
  /\ PricedOrderLine.quantity p = ValidatedOrderLine.quantity v.

(** The price passed both bound tests of [Price.create]. *)
Definition within_price_bound (price : float) : Prop :=
  (price <? 0)%float = false /\ (1000 <? price)%float = false.

(** The product a line is priced at when its price is looked up in the
    world [w]: the quantity times the unit price. *)
Definition line_product {W : Type} (getProductPrice : ProductCode.t -> M W Price.t)
  (line : ValidatedOrderLine.t) (w : W) : float :=
  (OrderQuantity.value (ValidatedOrderLine.quantity line)
   * fst (getProductPrice (ValidatedOrderLine.productCode line) w))%float.

(** The value is not an error, or it is a validation error. *)
Definition validation_or_value {T : Type} (r : T + Err) : Prop :=
  match r with
  | inl _ => True
  | inr e => errType e = Validation
  end.

(** The sum [BillingAmount.sumPrices] checks: the prices added from the
    left, starting from zero. *)
Definition total_of (prices : list float) : float :=
  fold_left (fun total p => (total + p)%float) prices 0%float.

(** What the bounded-number constructors promise, for a constructor [create]
    with the range [[lo, hi]] whose values are built by [wrap]: below the
    range is [TooSmall], above it is [TooBig], and an integral value inside
    it is returned as it was given. *)
Definition bounded_constructor_spec {T : Type} (create : float -> T + Err)
  (wrap : float -> T) (lo hi : float) : Prop :=
  forall v : float,
    ((v <? lo)%float = true -> outcome (create v) = Some TooSmall)
    /\ ((hi <? v)%float = true -> outcome (create v) = Some TooBig)
    /\ (((lo <=? v) && (v <=? hi))%float = true -> Number_isInteger v = true ->
        create v = inl (wrap v)).

(** An address like [sample_address], with a zip code of five digits. *)
Definition numeric_zip_address : UnvalidatedAddress.t :=
  {| UnvalidatedAddress.isValidated := false;
     UnvalidatedAddress.addressLine1 := "1 Main Street";
     UnvalidatedAddress.addressLine2 := "Floor 2";
     UnvalidatedAddress.addressLine3 := "Suite 3";
     UnvalidatedAddress.addressLine4 := "Desk 4";
     UnvalidatedAddress.city := "Springfield";
     UnvalidatedAddress.zipCode := "62704";
     UnvalidatedAddress.state := "IL";
     UnvalidatedAddress.country := "US" |}.

Definition numeric_zip_order : UnvalidatedOrder.t :=
  {| UnvalidatedOrder.orderId := "order-1";
     UnvalidatedOrder.customerInfo := sample_customer;
     UnvalidatedOrder.shippingAddress := numeric_zip_address;
     UnvalidatedOrder.billingAddress := numeric_zip_address;
     UnvalidatedOrder.lines := [sample_line "line-1" "Wdddd" 10%float] |}.

(** The order [sample_order "order-1"] with one line of ten widgets, as
    validated. *)
Definition sample_validated_line : ValidatedOrderLine.t :=
  {| ValidatedOrderLine.orderLineId := "line-1";
     ValidatedOrderLine.productCode :=
       ProductCode.Widget {| WidgetCode.code := "Wdddd" |};
     ValidatedOrderLine.quantity :=
       OrderQuantity.Unit {| UnitQuantity.quantity := 10%float |} |}.

(** *** Vocabulary of the further properties *)

(** [w] occurs in [s] as a run of consecutive characters. *)
Fixpoint contains (w s : string) : bool :=
  String.prefix w s
  || match s with
     | EmptyString => false
     | String _ rest => contains w rest
     end.

(** The string of [n] characters [c]. *)
Fixpoint repeat_char (n : nat) (c : ascii) : string :=
  match n with
  | O => EmptyString
  | S k => String c (repeat_char k c)
  end.

(** The character [c] occurs in [s]. *)
Fixpoint has_char (c : ascii) (s : string) : bool :=
  match s with
  | EmptyString => false
  | String a rest => Ascii.eqb a c || has_char c rest
  end.

(** Every character of [s] is a decimal digit. *)
Fixpoint digits_only (s : string) : bool :=
  match s with
  | EmptyString => true
  | String a rest => is_digit a && digits_only rest
  end.

(** A string a bounded-string constructor with the maximum [maxLen]
    accepts: not empty, and of at most [maxLen] characters. *)
Definition bounded_string (maxLen : nat) (s : string) : Prop :=
  s <> EmptyString /\ (String.length s <= maxLen)%nat.

(** A number a bounded-number constructor over [[lo, hi]] returns: integral
    and inside the range. *)
Definition bounded_integral (lo hi v : float) : Prop :=
  Number_isInteger v = true /\ (lo <=? v)%float = true /\ (v <=? hi)%float = true.

(** The validated line has the identifier, the product code and the
    quantity of the line it was made from. *)
Definition line_validated (l : UnvalidatedOrderLine.t) (v : ValidatedOrderLine.t)
  : Prop :=
  ValidatedOrderLine.orderLineId v = UnvalidatedOrderLine.orderLineId l
  /\ ProductCode.value (ValidatedOrderLine.productCode v)
     = UnvalidatedOrderLine.productCode l
  /\ OrderQuantity.value (ValidatedOrderLine.quantity v)
     = UnvalidatedOrderLine.quantity l.

(** The priced line has the identifier, the product code and the quantity
    of the line submitted. *)
Definition line_placed (l : UnvalidatedOrderLine.t) (p : PricedOrderLine.t) : Prop :=
  PricedOrderLine.orderLineId p = UnvalidatedOrderLine.orderLineId l
  /\ ProductCode.value (PricedOrderLine.productCode p)
     = UnvalidatedOrderLine.productCode l
  /\ OrderQuantity.value (PricedOrderLine.quantity p)
     = UnvalidatedOrderLine.quantity l.

(** The calls of the acknowledgment step. *)
Definition is_acknowledgment_call (c : Call) : bool :=
  match c with
  | CallCreateOrderAcknowledgmentLetter _ | CallSendOrderAcknowledgment _ => true
  | _ => false
  end.

Definition not_acknowledgment (c : Call) : Prop := is_acknowledgment_call c = false.

(** Whatever the log it starts from, the computation only adds calls, and
    the calls it adds satisfy [P]. *)
Definition appends {A : Type} (P : Call -> Prop) (c : M Log A) : Prop :=
  forall log, exists calls, snd (c log) = log ++ calls /\ Forall P calls.

(* ================================================================== *)
(** ** The built-ins at the code's call sites *)
(* ================================================================== *)

(** The patterns of the code, as [RegExp] receives them.  In each string
    literal the backslash before [d] is dropped, so no pattern has a digit
    class: [d{5}] is five letters [d]. *)
Lemma patterns_compile :
  RegExp (literal ".+@.+]") = Some [RPlus RAny; RChr "@"; RPlus RAny; RChr "]"]
  /\ RegExp (literal "\d{5}") = Some [RRepeat 5 (RChr "d")]
  /\ RegExp (literal "W\d{4}") = Some [RChr "W"; RRepeat 4 (RChr "d")]
  /\ RegExp (literal "G\d{3}") = Some [RChr "G"; RRepeat 3 (RChr "d")].
Proof. repeat split. Qed.

(** The same sources with the backslash kept, as a regular expression
    literal would have them, do have the digit class. *)
Lemma patterns_with_digit_class :
  RegExp "\d{5}" = Some [RRepeat 5 RDigit]
  /\ RegExp "W\d{4}" = Some [RChr "W"; RRepeat 4 RDigit]
  /\ test (RegExp "W\d{4}") (JsStr "W1234") = true
  /\ test (RegExp "W\d{4}") (JsStr "W12") = false.
Proof. repeat split. Qed.

(** [if (isErr(x)) return x] is the [inr] branch of a [match] on [x]. *)
Lemma isErr_spec {T : Type} (v : T + Err) : isErr v = true <-> exists e, v = inr e.
Proof.
  destruct v as [t|e]; cbn; split; try discriminate.
  - intros [e He]. discriminate.
  - intros _. exists e. reflexivity.
  - reflexivity.
Qed.

(* ================================================================== *)
(** ** Facts about the order of binary64 values *)
(* ================================================================== *)

Local Open Scope float_scope.

Lemma compare_cont_Eq (m1 m2 : positive) :
  PosDef.Pos.compare_cont Eq m1 m2 = Pos.compare m1 m2.
Proof. reflexivity. Qed.

Lemma SFcompare_antisym (a b : spec_float) (c : comparison) :
  SFcompare a b = Some c -> SFcompare b a = Some (CompOpp c).
Proof.
  destruct a as [sa|sa| |sa ma ea], b as [sb|sb| |sb mb eb]; simpl;
    try discriminate;
    try (intros [= <-]; destruct sa; try destruct sb; reflexivity);
    try (intros [= <-]; destruct sb; reflexivity).
  intros [= <-].
  rewrite !compare_cont_Eq.
  rewrite (Z.compare_antisym ea eb), (Pos.compare_antisym ma mb).
  destruct sa, sb; simpl; try reflexivity;
    destruct (ea ?= eb)%Z; simpl; try reflexivity;
    destruct (ma ?= mb)%positive; reflexivity.
Qed.

Lemma SFcompare_Lt_trans (a b c : spec_float) :
  SFcompare a b = Some Lt -> SFcompare b c = Some Lt -> SFcompare a c = Some Lt.
Proof.
  destruct a as [sa|sa| |sa ma ea], b as [sb|sb| |sb mb eb], c as [sc|sc| |sc mc ec];
    simpl; try discriminate;
    try (destruct sa; try discriminate); try (destruct sb; try discriminate);
    try (destruct sc; try discriminate); try reflexivity; try congruence.
  all: intros H1 H2; injection H1 as H1; injection H2 as H2; f_equal.
  all: repeat rewrite compare_cont_Eq in *.
  all: destruct (Z.compare_spec ea eb), (Z.compare_spec eb ec); try discriminate; subst;
    rewrite ?Z.compare_refl.
  all: try (destruct (Z.compare_spec ea ec); try lia; try reflexivity).
  all: try (destruct (Pos.compare_spec ma mb), (Pos.compare_spec mb mc);
            try discriminate; subst;
            destruct (Pos.compare_spec ma mc); try lia; reflexivity).
  all: try (destruct (Z.compare_spec eb ec); try lia; try reflexivity; try assumption).
  all: try (destruct (Z.compare_spec ea eb); try lia; try reflexivity; try assumption).
Qed.

(** [a <= b] excludes [b < a]. *)
Lemma leb_not_gt (a b : float) : (a <=? b) = true -> (b <? a) = false.
Proof.
  rewrite leb_spec, ltb_spec. unfold SFleb, SFltb.
  destruct (SFcompare (Prim2SF a) (Prim2SF b)) as [c|] eqn:E; try discriminate.
  rewrite (@SFcompare_antisym _ _ _ E).
  destruct c; simpl; congruence.
Qed.

Lemma ltb_trans (a b c : float) : (a <? b) = true -> (b <? c) = true -> (a <? c) = true.
Proof.
  rewrite !ltb_spec. unfold SFltb.
  destruct (SFcompare (Prim2SF a) (Prim2SF b)) as [[]|] eqn:E1; try discriminate.
  destruct (SFcompare (Prim2SF b) (Prim2SF c)) as [[]|] eqn:E2; try discriminate.
  rewrite (@SFcompare_Lt_trans _ _ _ E1 E2). reflexivity.
Qed.

(** Above the maximum of a non-empty range is not below its minimum. *)
Lemma above_max_not_below_min (minVal maxVal i : float) :
  (minVal <=? maxVal) = true -> (maxVal <? i) = true -> (i <? minVal) = false.
Proof.
  intros Hrange Habove.
  destruct (i <? minVal) eqn:Hbelow; [|reflexivity].
  pose proof (@ltb_trans _ _ _ Habove Hbelow) as Hlt.
  rewrite (@leb_not_gt _ _ Hrange) in Hlt. discriminate.
Qed.

(** Inside [[minVal, maxVal]] neither bound test of the constructors fires. *)
Lemma in_range_tests (minVal maxVal i : float) :
  (minVal <=? i) && (i <=? maxVal) = true ->
  (i <? minVal) = false /\ (maxVal <? i) = false.
Proof.
  intros H. apply andb_true_iff in H as [Hlo Hhi].
  split; apply leb_not_gt; assumption.
Qed.

(* ================================================================== *)
(** ** The constrained types *)
(* ================================================================== *)

Section BoundedNumbers.

Context {fmt : NumberFormat}.
Variables (fieldName : string) (minVal maxVal i : float).

Lemma createInt_TooSmall :
  (i <? minVal) = true ->
  ConstrainedType.createInt fieldName minVal maxVal i
  = inr {| errType := TooSmall;
           msg := (Number_toString i ++ ": Must not be less than "
                   ++ Number_toString minVal)%string |}.
Proof. intros H. unfold ConstrainedType.createInt. rewrite H. reflexivity. Qed.

Lemma createDecimal_TooSmall :
  (i <? minVal) = true ->
  ConstrainedType.createDecimal fieldName minVal maxVal i
  = inr {| errType := TooSmall;
           msg := (Number_toString i ++ ": Must not be less than "
                   ++ Number_toString minVal)%string |}.
Proof. intros H. unfold ConstrainedType.createDecimal. rewrite H. reflexivity. Qed.

Lemma createInt_TooBig :
  (i <? minVal) = false -> (maxVal <? i) = true ->
  ConstrainedType.createInt fieldName minVal maxVal i
  = inr {| errType := TooBig;
           msg := (Number_toString i ++ ": Must not be greater than "
                   ++ Number_toString maxVal)%string |}.
Proof. intros H1 H2. unfold ConstrainedType.createInt. rewrite H1, H2. reflexivity. Qed.

Lemma createDecimal_TooBig :
  (i <? minVal) = false -> (maxVal <? i) = true ->
  ConstrainedType.createDecimal fieldName minVal maxVal i
  = inr {| errType := TooBig;
           msg := (Number_toString i ++ ": Must not be greater than "
                   ++ Number_toString maxVal)%string |}.
Proof.
  intros H1 H2. unfold ConstrainedType.createDecimal. rewrite H1, H2. reflexivity.
Qed.

Lemma createInt_in_range :
  (minVal <=? i) && (i <=? maxVal) = true ->
  ConstrainedType.createInt fieldName minVal maxVal i
  = if Number_isInteger i then inl i
    else inr {| errType := NotInt;
                msg := (Number_toString i ++ ": Must be integer")%string |}.
Proof.
  intros H. destruct (@in_range_tests _ _ _ H) as [H1 H2].
  unfold ConstrainedType.createInt. rewrite H1, H2.
  destruct (Number_isInteger i); reflexivity.
Qed.

Lemma createDecimal_in_range :
  (minVal <=? i) && (i <=? maxVal) = true ->
  ConstrainedType.createDecimal fieldName minVal maxVal i
  = if Number_isInteger i then inl i
    else inr {| errType := NotDecimal;
                msg := (Number_toString i ++ ": Must be decimal")%string |}.
Proof.
  intros H. destruct (@in_range_tests _ _ _ H) as [H1 H2].
  unfold ConstrainedType.createDecimal. rewrite H1, H2.
  destruct (Number_isInteger i); reflexivity.
Qed.

End BoundedNumbers.

Lemma bounded_constructor_createInt {fmt : NumberFormat} (fieldName : string)
  (lo hi : float) :
  (lo <=? hi) = true ->
  bounded_constructor_spec (ConstrainedType.createInt fieldName lo hi) (fun v => v) lo hi.
Proof.
  intros Hrange v. repeat split.
  - intros H. rewrite (createInt_TooSmall fieldName _ _ _ H). reflexivity.
  - intros H.
    rewrite (createInt_TooBig fieldName _ _ _ (above_max_not_below_min _ _ _ Hrange H) H).
    reflexivity.
  - intros H Hint. rewrite (createInt_in_range fieldName _ _ _ H), Hint. reflexivity.
Qed.

Lemma bounded_constructor_createDecimal {fmt : NumberFormat} (fieldName : string)
  (lo hi : float) :
  (lo <=? hi) = true ->
  bounded_constructor_spec (ConstrainedType.createDecimal fieldName lo hi) (fun v => v) lo hi.
Proof.
  intros Hrange v. repeat split.
  - intros H. rewrite (createDecimal_TooSmall fieldName _ _ _ H). reflexivity.
  - intros H.
    rewrite (createDecimal_TooBig fieldName _ _ _
               (above_max_not_below_min _ _ _ Hrange H) H).
    reflexivity.
  - intros H Hint. rewrite (createDecimal_in_range fieldName _ _ _ H), Hint. reflexivity.
Qed.

(** A constructor that wraps the value of a bounded constructor keeps its
    promise. *)
Lemma bounded_constructor_wrap {T : Type} (create : float -> float + Err)
  (wrap : float -> T) (lo hi : float) :
  bounded_constructor_spec create (fun v => v) lo hi ->
  bounded_constructor_spec
    (fun v => match create v with inl q => inl (wrap q) | inr e => inr e end) wrap lo hi.
Proof.
  intros Hspec v. destruct (Hspec v) as (Hlow & Hhigh & Hin). repeat split.
  - intros H. specialize (Hlow H). destruct (create v); [discriminate | exact Hlow].
  - intros H. specialize (Hhigh H). destruct (create v); [discriminate | exact Hhigh].
  - intros H Hint. rewrite (Hin H Hint). reflexivity.
Qed.

(** C6, as stated, fails on the code: 2.5 lies within the range [1, 1000],
    and [createInt] does not return it unchanged (it answers [NotInt]). *)
Lemma createInt_fraction_in_range_not_returned :
  ((1 <=? 2.5) && (2.5 <=? 1000) = true)
  /\ (forall fmt : NumberFormat,
        @ConstrainedType.createInt fmt "UnitQuantity" 1 1000 2.5 <> inl 2.5
        /\ outcome (@ConstrainedType.createInt fmt "UnitQuantity" 1 1000 2.5)
           = Some NotInt).
Proof.
  split; [reflexivity|]. intros fmt. split; [discriminate | reflexivity].
Qed.

(** The order of the two bound tests matters only for an empty range:
    with [minVal = 10] and [maxVal = 5], the input 7 is above the maximum
    and is reported [TooSmall]. *)
Example createInt_empty_range :
  forall fmt : NumberFormat,
    outcome (@ConstrainedType.createInt fmt "n" 10 5 7) = Some TooSmall.
Proof. reflexivity. Qed.

(** C6 (amended): for [createInt] and [createDecimal] over a range
    [lo <= hi], and for the domain types built on them (unit quantity,
    kilogram quantity, price, billing amount): an input strictly below the
    minimum yields [TooSmall]; an input strictly above the maximum yields
    [TooBig]; an input within the range that is integral is returned
    unchanged; and an input within the range that is not integral makes
    [createInt] answer [NotInt]. *)
Theorem bounded_constructors_amended :
  forall (fmt : NumberFormat) (fieldName : string),
    (forall lo hi, (lo <=? hi) = true ->
       bounded_constructor_spec
         (ConstrainedType.createInt fieldName lo hi) (fun v => v) lo hi)
    /\ (forall lo hi, (lo <=? hi) = true ->
          bounded_constructor_spec
            (ConstrainedType.createDecimal fieldName lo hi) (fun v => v) lo hi)
    /\ (forall lo hi v,
          (lo <=? v) && (v <=? hi) = true -> Number_isInteger v = false ->
          outcome (ConstrainedType.createInt fieldName lo hi v) = Some NotInt)
    /\ bounded_constructor_spec (UnitQuantity.create fieldName) UnitQuantity.mk 1 1000
    /\ bounded_constructor_spec
         (KilogramQuantity.create fieldName) KilogramQuantity.mk 0.5 100
    /\ bounded_constructor_spec Price.create (fun v => v) 0 1000
    /\ bounded_constructor_spec BillingAmount.create (fun v => v) 0 10000.
Proof.
  intros fmt fieldName. repeat apply conj.
  - intros lo hi H. apply bounded_constructor_createInt; assumption.
  - intros lo hi H. apply bounded_constructor_createDecimal; assumption.
  - intros lo hi v H Hint.
    rewrite (createInt_in_range fieldName _ _ _ H), Hint. reflexivity.
  - apply (bounded_constructor_wrap
             (ConstrainedType.createInt fieldName 1 1000) UnitQuantity.mk).
    apply bounded_constructor_createInt; reflexivity.
  - apply (bounded_constructor_wrap
             (ConstrainedType.createDecimal fieldName 0.5 100) KilogramQuantity.mk).
    apply bounded_constructor_createDecimal; reflexivity.
  - apply (bounded_constructor_createDecimal "Price"); reflexivity.
  - apply (bounded_constructor_createDecimal "BillingAmount"); reflexivity.
Qed.

(** The amended C6 at work: 500 units is within [1, 1000] and integral. *)
Lemma bounded_constructors_amended_witness :
  @UnitQuantity.create sample_format "OrderQuantity" 500
  = inl {| UnitQuantity.quantity := 500 |}.
Proof.
  destruct (bounded_constructors_amended sample_format "OrderQuantity")
    as (_ & _ & _ & Hunit & _).
  destruct (Hunit 500) as (_ & _ & Hin).
  apply Hin; reflexivity.
Defined.

(** C4: the code at the claim's inputs.  The pattern of a widget code is
    built from the string literal ['W\d{4}'], whose value is [Wd{4}]: a [W]
    followed by four letters [d].  So ["W1234"] and ["G123"] are refused
    with [DoesNotMatch], where the claim has them accepted; ["X1"] is an
    [UnknownFormat] and ["W12"] a [DoesNotMatch], as the claim says; and
    the codes that are accepted are those containing [Wdddd] or [Gddd]. *)
Theorem ProductCode_create_at_claimed_inputs :
  literal "W\d{4}" = "Wd{4}"%string
  /\ RegExp (literal "W\d{4}") = Some [RChr "W"; RRepeat 4 (RChr "d")]
  /\ RegExp (literal "G\d{3}") = Some [RChr "G"; RRepeat 3 (RChr "d")]
  /\ ProductCode.create "ProductCode" "W1234"
     = inr {| errType := DoesNotMatch; msg := "W1234: Must not be null or empty" |}
  /\ ProductCode.create "ProductCode" "G123"
     = inr {| errType := DoesNotMatch; msg := "G123: Must not be null or empty" |}
  /\ ProductCode.create "ProductCode" "X1"
     = inr {| errType := UnknownFormat;
              msg := "ProductCode: Format not recognized 'X1'" |}
  /\ ProductCode.create "ProductCode" "W12"
     = inr {| errType := DoesNotMatch; msg := "W12: Must not be null or empty" |}
  /\ ProductCode.create "ProductCode" "Wdddd"
     = inl (ProductCode.Widget {| WidgetCode.code := "Wdddd" |})
  /\ ProductCode.create "ProductCode" "Gddd"
     = inl (ProductCode.Gizmo {| GizmoCode.code := "Gddd" |}).
Proof. repeat split; vm_compute; reflexivity. Qed.

(** [OrderQuantity.create] chooses the constructor by the tag of the
    product code. *)
Lemma OrderQuantity_create_dispatch {fmt : NumberFormat} (fieldName : string) (v : float) :
  (forall w, OrderQuantity.create fieldName (ProductCode.Widget w) v
             = match UnitQuantity.create fieldName v with
               | inl u => inl (OrderQuantity.Unit u)
               | inr e => inr e
               end)
  /\ (forall g, OrderQuantity.create fieldName (ProductCode.Gizmo g) v
                = match KilogramQuantity.create fieldName v with
                  | inl k => inl (OrderQuantity.Kilogram k)
                  | inr e => inr e
                  end).
Proof. split; reflexivity. Qed.

(** C5: the code at the claim's inputs.  A widget code selects the unit
    quantity: 500 is accepted and 1500 is [TooBig], as the claim says.  A
    gizmo code selects the kilogram quantity, and there the code departs
    from the claim: 2.5 is refused with [NotDecimal] (the decimal
    constructor accepts integral values only), and the lower bound is 0.5,
    not 0.05, so 0.01 is [TooSmall] as claimed but so is 0.1. *)
Theorem OrderQuantity_create_at_claimed_inputs :
  forall fmt : NumberFormat,
    OrderQuantity.create "OrderQuantity" widget_W1234 500
    = inl (OrderQuantity.Unit {| UnitQuantity.quantity := 500 |})
    /\ OrderQuantity.create "OrderQuantity" widget_W1234 1500
       = inr {| errType := TooBig;
                msg := (Number_toString 1500 ++ ": Must not be greater than "
                        ++ Number_toString 1000)%string |}
    /\ OrderQuantity.create "OrderQuantity" gizmo_G123 2.5
       = inr {| errType := NotDecimal;
                msg := (Number_toString 2.5 ++ ": Must be decimal")%string |}
    /\ OrderQuantity.create "OrderQuantity" gizmo_G123 0.01
       = inr {| errType := TooSmall;
                msg := (Number_toString 0.01 ++ ": Must not be less than "
                        ++ Number_toString 0.5)%string |}
    /\ outcome (OrderQuantity.create "OrderQuantity" gizmo_G123 0.1) = Some TooSmall
    /\ OrderQuantity.create "OrderQuantity" gizmo_G123 3
       = inl (OrderQuantity.Kilogram {| KilogramQuantity.quantity := 3 |}).
Proof. intros fmt. repeat split. Qed.

(** The optional-string constructor: absent for an empty, [null] or
    [undefined] input, [TooLong] above the maximal length, the string
    itself otherwise. *)
Lemma createStringOption_cases (fieldName : string) (maxLen : nat) :
  ConstrainedType.createStringOption fieldName maxLen (JsStr EmptyString) = inl None
  /\ ConstrainedType.createStringOption fieldName maxLen JsNull = inl None
  /\ ConstrainedType.createStringOption fieldName maxLen JsUndefined = inl None
  /\ (forall s, s <> EmptyString -> (maxLen < String.length s)%nat ->
        outcome (ConstrainedType.createStringOption fieldName maxLen (JsStr s))
        = Some TooLong)
  /\ (forall s, s <> EmptyString -> (String.length s <= maxLen)%nat ->
        ConstrainedType.createStringOption fieldName maxLen (JsStr s) = inl (Some s)).
Proof.
  repeat split; try reflexivity.
  - intros s Hne Hlen.
    unfold ConstrainedType.createStringOption, ConstrainedType.createString.
    destruct s as [|c s]; [congruence|]. cbn [ConstrainedType.isEmptyString
      includes_null_undefined_empty chars].
    apply Nat.ltb_lt in Hlen. rewrite Hlen. reflexivity.
  - intros s Hne Hlen.
    unfold ConstrainedType.createStringOption, ConstrainedType.createString.
    destruct s as [|c s]; [congruence|]. cbn [ConstrainedType.isEmptyString
      includes_null_undefined_empty chars].
    apply Nat.ltb_ge in Hlen. rewrite Hlen. reflexivity.
Qed.

(** C8: the code at an address whose optional lines 2 to 4 are empty.
    [createStringOption] answers "absent" for an empty line, but [toAddress]
    does not call it: it builds the lines 2 to 4 with [String50.create],
    which refuses an empty string.  So the address is rejected with a
    validation error on line 2, where the claim has it validated with the
    lines absent; the same address with the three lines filled in is
    accepted. *)
Theorem toAddress_empty_optional_lines :
  toAddress sparse_address
  = inr (createValidationError "AddressLine2 must not be null or undefined or empty")
  /\ ConstrainedType.createStringOption "AddressLine2" 50
       (JsStr (UnvalidatedAddress.addressLine2 sparse_address)) = inl None
  /\ String50.create "AddressLine2"
       (JsStr (UnvalidatedAddress.addressLine2 sparse_address))
     = inr {| errType := Empty;
              msg := "AddressLine2 must not be null or undefined or empty" |}
  /\ toAddress sample_address = inl sample_validated_address.
Proof. repeat split. Qed.

(* ================================================================== *)
(** ** Collected results *)
(* ================================================================== *)

Lemma splitErr_cons {T E : Type} (r : T + E) (rest : list (T + E)) :
  splitErr (r :: rest)
  = match r with
    | inl v => (v :: fst (splitErr rest), snd (splitErr rest))
    | inr e => (fst (splitErr rest), e :: snd (splitErr rest))
    end.
Proof. simpl. destruct (splitErr rest), r; reflexivity. Qed.

Lemma splitErr_map_inl {T E : Type} (oks : list T) :
  splitErr (map (@inl T E) oks) = (oks, []).
Proof.
  induction oks as [|v oks IH]; [reflexivity|].
  cbn [map]. rewrite splitErr_cons, IH. reflexivity.
Qed.

(** Without a collected error, every result is a value, in the order of the
    results. *)
Lemma splitErr_no_error {T E : Type} (results : list (T + E)) :
  snd (splitErr results) = [] -> results = map inl (fst (splitErr results)).
Proof.
  induction results as [|r rest IH]; [reflexivity|].
  rewrite splitErr_cons. destruct r as [v|e]; cbn [fst snd map].
  - intros H. rewrite <- (IH H). reflexivity.
  - discriminate.
Qed.

(** The first collected error is the error of the first result that is
    one. *)
Lemma splitErr_first_error {T E : Type} (results : list (T + E)) (e : E) (errs : list E) :
  snd (splitErr results) = e :: errs ->
  exists (before : list T) (after : list (T + E)),
    results = map inl before ++ inr e :: after.
Proof.
  induction results as [|r rest IH]; [discriminate|].
  rewrite splitErr_cons. destruct r as [v|e']; cbn [fst snd].
  - intros H. destruct (IH H) as (before & after & ->).
    exists (v :: before), after. reflexivity.
  - intros [= -> _]. exists [], rest. reflexivity.
Qed.

Lemma splitErr_error_after_values {T E : Type} (before : list T) (e : E)
  (after : list (T + E)) :
  snd (splitErr (map inl before ++ inr e :: after)) = e :: snd (splitErr after).
Proof.
  induction before as [|v before IH]; cbn [map app]; rewrite splitErr_cons;
    cbn [snd]; [reflexivity | exact IH].
Qed.

(** [mapM] runs [f] on every element: it returns one result per element. *)
Lemma mapM_length {W A B : Type} (f : A -> M W B) (xs : list A) (w : W) :
  length (fst (mapM f xs w)) = length xs.
Proof.
  revert w. induction xs as [|x rest IH]; intros w; [reflexivity|].
  cbn [mapM]. unfold bind. destruct (f x w) as [y w1].
  specialize (IH w1). destruct (mapM f rest w1) as [ys w2].
  cbn in *. rewrite IH. reflexivity.
Qed.

(** What holds between an element and its result, whatever the world, holds
    between the list and the list of results. *)
Lemma mapM_Forall2 {W A B : Type} (R : A -> B -> Prop) (f : A -> M W B) :
  (forall x w, R x (fst (f x w))) ->
  forall xs w, Forall2 R xs (fst (mapM f xs w)).
Proof.
  intros Hf xs. induction xs as [|x rest IH]; intros w; [constructor|].
  cbn [mapM]. unfold bind. pose proof (Hf x w) as Hx.
  destruct (f x w) as [y w1]. specialize (IH w1).
  destruct (mapM f rest w1) as [ys w2]. cbn in *. constructor; assumption.
Qed.

(** Mapping a function in the mathematical sense is [map], and leaves the
    world alone. *)
Lemma mapM_function {W A B : Type} (f : A -> M W B) (g : A -> B) :
  (forall a w, f a w = (g a, w)) ->
  forall xs w, mapM f xs w = (map g xs, w).
Proof.
  intros Hf xs w. induction xs as [|x rest IH]; [reflexivity|].
  cbn [mapM map]. unfold bind. rewrite Hf, IH. reflexivity.
Qed.

(* ================================================================== *)
(** ** Event assembly *)
(* ================================================================== *)

(** C2: for every priced order and every optional acknowledgment event,
    [createEvents] returns the acknowledgment event (when there is one),
    then the order-placed event, then the billing event (when the amount to
    bill is strictly positive), in this order; so the order-placed event is
    always in the list, a billable-order-placed event is in it if and only
    if the amount is strictly greater than zero, and an acknowledgment-sent
    event is in it if and only if it is the one passed in. *)
Theorem createEvents_contents_and_order :
  forall (pricedOrder : PricedOrder.t) (ack : option OrderAcknowledgmentSent.t),
    let events := createEvents pricedOrder ack in
    let billable := (0 <? PricedOrder.amountToBill pricedOrder) in
    events
    = map EvOrderAcknowledgmentSent (listOfOption ack)
      ++ [EvOrderPlaced pricedOrder]
      ++ (if billable
          then [EvBillableOrderPlaced
                  {| BillableOrderPlaced.orderId := PricedOrder.orderId pricedOrder;
                     BillableOrderPlaced.billingAddress :=
                       PricedOrder.billingAddress pricedOrder;
                     BillableOrderPlaced.amountToBill :=
                       PricedOrder.amountToBill pricedOrder |}]
          else [])
    /\ In (EvOrderPlaced pricedOrder) events
    /\ ((exists b, In (EvBillableOrderPlaced b) events) <-> billable = true)
    /\ (forall a, In (EvOrderAcknowledgmentSent a) events <-> ack = Some a).
Proof.
  intros pricedOrder ack events billable. subst events billable.
  unfold createEvents, createBillingEvent, createOrderPlacedEvent, BillingAmount.value.
  destruct (0 <? PricedOrder.amountToBill pricedOrder) eqn:Hbill;
    destruct ack as [a0|]; cbn [listOfOption map app];
    (split; [reflexivity|]); (split; [cbn; tauto|]); split.
  all: try (split; [reflexivity | intros _; eexists; cbn; eauto]).
  all: try (split; [intros [b Hb]; cbn in Hb; intuition discriminate | discriminate]).
  all: intros a; cbn; split; intros H;
    try (injection H as ->; tauto);
    intuition (try discriminate; try congruence).
Qed.

(* ================================================================== *)
(** ** The pricing step *)
(* ================================================================== *)

Section Pricing.

Context {W : Type} {fmt : NumberFormat}.
Variable getProductPrice : ProductCode.t -> M W Price.t.

(** One line: the price is looked up once, multiplied by the quantity, and
    the product is checked by [Price.create]. *)
Lemma toPricedOrderLine_run (line : ValidatedOrderLine.t) (w : W) :
  toPricedOrderLine getProductPrice line w
  = (match Price.create (line_product getProductPrice line w) with
     | inr e => inr {| errType := Pricing; msg := msg e |}
     | inl linePrice =>
         inl {| PricedOrderLine.orderLineId := ValidatedOrderLine.orderLineId line;
                PricedOrderLine.productCode := ValidatedOrderLine.productCode line;
                PricedOrderLine.quantity := ValidatedOrderLine.quantity line;
                PricedOrderLine.linePrice := linePrice |}
     end,
     snd (getProductPrice (ValidatedOrderLine.productCode line) w)).
Proof.
  unfold toPricedOrderLine, bind, Price.multiply, line_product.
  destruct (getProductPrice (ValidatedOrderLine.productCode line) w) as [price w1].
  cbn [fst snd]. destruct (Price.create _); reflexivity.
Qed.

Lemma Price_create_success (v p : float) :
  Price.create v = inl p -> p = v /\ within_price_bound p.
Proof.
  unfold Price.create, ConstrainedType.createDecimal, within_price_bound.
  destruct (v <? 0) eqn:H1; [discriminate|].
  destruct (1000 <? v) eqn:H2; [discriminate|].
  destruct (Number_isInteger v); [|discriminate].
  cbn. intros [= <-]. auto.
Qed.

(** A priced line keeps the line and carries the checked product. *)
Lemma toPricedOrderLine_success (line : ValidatedOrderLine.t) (w : W)
  (p : PricedOrderLine.t) :
  fst (toPricedOrderLine getProductPrice line w) = inl p ->
  same_line line p
  /\ PricedOrderLine.linePrice p = line_product getProductPrice line w
  /\ within_price_bound (PricedOrderLine.linePrice p).
Proof.
  rewrite toPricedOrderLine_run. cbn [fst].
  destruct (Price.create (line_product getProductPrice line w)) as [lp|e] eqn:Hc; [|discriminate].
  intros [= <-]. destruct (Price_create_success _ _ Hc) as [-> Hb].
  unfold same_line. cbn. auto.
Qed.

(** A line error is a [Pricing] error with the message of [Price.create]. *)
Lemma toPricedOrderLine_failure (line : ValidatedOrderLine.t) (w : W) (e : Err) :
  fst (toPricedOrderLine getProductPrice line w) = inr e ->
  errType e = Pricing
  /\ exists e0, Price.create (line_product getProductPrice line w) = inr e0 /\ msg e = msg e0.
Proof.
  rewrite toPricedOrderLine_run. cbn [fst].
  destruct (Price.create (line_product getProductPrice line w)) as [lp|e0]; [discriminate|].
  intros [= <-]. split; [reflexivity|]. exists e0. auto.
Qed.

(** The order: every line is priced, the results are split, and either the
    first line error or the check of the sum decides. *)
Lemma priceOrder_run (validatedOrder : ValidatedOrder.t) (w : W) :
  priceOrder getProductPrice validatedOrder w
  = let run := mapM (toPricedOrderLine getProductPrice)
                 (ValidatedOrder.lines validatedOrder) w in
    (match snd (splitErr (fst run)) with
     | e :: _ => inr (createPricingError (msg e))
     | [] =>
         match BillingAmount.create
                 (total_of (map PricedOrderLine.linePrice (fst (splitErr (fst run))))) with
         | inr e => inr (createPricingError (msg e))
         | inl amountToBill =>
             inl {| PricedOrder.orderId := ValidatedOrder.orderId validatedOrder;
                    PricedOrder.customerInfo := ValidatedOrder.customerInfo validatedOrder;
                    PricedOrder.shippingAddress :=
                      ValidatedOrder.shippingAddress validatedOrder;
                    PricedOrder.billingAddress :=
                      ValidatedOrder.billingAddress validatedOrder;
                    PricedOrder.amountToBill := amountToBill;
                    PricedOrder.lines := fst (splitErr (fst run)) |}
         end
     end,
     snd run).
Proof.
  unfold priceOrder, bind, BillingAmount.sumPrices, total_of.
  destruct (mapM _ _ w) as [results w1]. cbn [fst snd].
  destruct (splitErr results) as [lines errs]. cbn [fst snd].
  destruct errs as [|e errs]; [|reflexivity].
  destruct (BillingAmount.create _); reflexivity.
Qed.

(** The values among the results of the lines are priced lines that keep
    their validated lines. *)
Lemma priced_lines_keep_lines (lines : list ValidatedOrderLine.t) (w : W)
  (pricedLines : list PricedOrderLine.t) :
  fst (mapM (toPricedOrderLine getProductPrice) lines w) = map inl pricedLines ->
  Forall2 same_line lines pricedLines
  /\ Forall (fun p => within_price_bound (PricedOrderLine.linePrice p)) pricedLines.
Proof.
  revert w pricedLines. induction lines as [|line rest IH]; intros w pricedLines.
  - destruct pricedLines; [split; constructor | discriminate].
  - cbn [mapM]. unfold bind.
    pose proof (toPricedOrderLine_success line w) as Hline.
    destruct (toPricedOrderLine getProductPrice line w) as [r w1].
    specialize (IH w1).
    destruct (mapM (toPricedOrderLine getProductPrice) rest w1) as [rs w2].
    cbn [fst] in *. destruct pricedLines as [|p ps]; [discriminate|].
    cbn [map]. intros [= -> ->].
    destruct (Hline p eq_refl) as (Hsame & _ & Hbound).
    destruct (IH ps eq_refl) as [Hall Hbounds].
    split; constructor; assumption.
Qed.

End Pricing.

(** C7: in [priceOrder], each line price is the quantity times the unit
    price, checked by [Price.create] against the price bound: a product
    outside [0, 1000] makes the line a [Pricing] error with the message of
    the bound check, and a priced line carries the product itself.  The
    first line error ends the whole order with that message.  When every
    line is priced, the line prices are summed and the sum is checked by
    [BillingAmount.create]: a sum above 10000 is a [Pricing] error although
    every line price passed its own bound. *)
Theorem priceOrder_pricing_errors :
  forall (W : Type) (fmt : NumberFormat) (getProductPrice : ProductCode.t -> M W Price.t)
         (validatedOrder : ValidatedOrder.t) (w : W),
    let results :=
      fst (mapM (toPricedOrderLine getProductPrice)
             (ValidatedOrder.lines validatedOrder) w) in
    let priced := fst (priceOrder getProductPrice validatedOrder w) in
    (forall line w0,
        let product := line_product getProductPrice line w0 in
        let pricedLine := fst (toPricedOrderLine getProductPrice line w0) in
        match pricedLine with
        | inl p => PricedOrderLine.linePrice p = product /\ within_price_bound product
        | inr e =>
            errType e = Pricing
            /\ exists e0, Price.create product = inr e0 /\ msg e = msg e0
        end
        /\ ((1000 <? product) = true ->
            pricedLine
            = inr {| errType := Pricing;
                     msg := (Number_toString product ++ ": Must not be greater than "
                             ++ Number_toString 1000)%string |})
        /\ ((product <? 0) = true ->
            pricedLine
            = inr {| errType := Pricing;
                     msg := (Number_toString product ++ ": Must not be less than "
                             ++ Number_toString 0)%string |}))
    /\ (forall before e after,
          results = map inl before ++ inr e :: after ->
          priced = inr (createPricingError (msg e)))
    /\ (forall pricedLines,
          results = map inl pricedLines ->
          let total := total_of (map PricedOrderLine.linePrice pricedLines) in
          Forall (fun p => within_price_bound (PricedOrderLine.linePrice p)) pricedLines
          /\ priced
             = match BillingAmount.create total with
               | inr e => inr (createPricingError (msg e))
               | inl amountToBill =>
                   inl {| PricedOrder.orderId := ValidatedOrder.orderId validatedOrder;
                          PricedOrder.customerInfo :=
                            ValidatedOrder.customerInfo validatedOrder;
                          PricedOrder.shippingAddress :=
                            ValidatedOrder.shippingAddress validatedOrder;
                          PricedOrder.billingAddress :=
                            ValidatedOrder.billingAddress validatedOrder;
                          PricedOrder.amountToBill := amountToBill;
                          PricedOrder.lines := pricedLines |}
               end
          /\ ((10000 <? total) = true ->
              priced
              = inr (createPricingError
                       (Number_toString total ++ ": Must not be greater than "
                        ++ Number_toString 10000)%string))).
Proof.
  intros W fmt getProductPrice validatedOrder w results priced.
  split; [|split].
  - intros line w0 product pricedLine. subst product pricedLine. split; [|split].
    + destruct (fst (toPricedOrderLine getProductPrice line w0)) as [p|e] eqn:Hr.
      * destruct (toPricedOrderLine_success _ _ _ _ Hr) as (_ & Hp & Hb).
        rewrite <- Hp. auto.
      * apply toPricedOrderLine_failure. exact Hr.
    + intros Habove. rewrite toPricedOrderLine_run. cbn [fst].
      unfold Price.create.
      rewrite (createDecimal_TooBig "Price" _ _ _
                 (above_max_not_below_min 0 1000 _ eq_refl Habove) Habove).
      reflexivity.
    + intros Hbelow. rewrite toPricedOrderLine_run. cbn [fst].
      unfold Price.create. rewrite (createDecimal_TooSmall "Price" _ _ _ Hbelow).
      reflexivity.
  - intros before e after Hres. subst priced results.
    rewrite priceOrder_run. cbn [fst]. rewrite Hres.
    rewrite splitErr_error_after_values. reflexivity.
  - intros pricedLines Hres total. subst priced results total.
    split; [apply (priced_lines_keep_lines _ _ _ _ Hres)|].
    rewrite priceOrder_run. cbn [fst]. rewrite Hres, splitErr_map_inl. cbn [fst snd].
    split; [reflexivity|].
    intros Habove. unfold BillingAmount.create.
    rewrite (createDecimal_TooBig "BillingAmount" _ _ _
               (above_max_not_below_min 0 10000 _ eq_refl Habove) Habove).
    reflexivity.
Qed.

(** C7 at work: eleven lines of one unit at 1000 each are priced at 1000,
    within the price bound, and their sum 11000 is refused. *)
Lemma priceOrder_pricing_errors_witness :
  fst (@priceOrder Log sample_format (log_getPrice 1000)
         (validated_order (repeat (validated_line "line" 1) 11)) [])
  = inr (createPricingError "11000: Must not be greater than 10000").
Proof.
  destruct (priceOrder_pricing_errors Log sample_format (log_getPrice 1000)
              (validated_order (repeat (validated_line "line" 1) 11)) [])
    as (_ & _ & Hsum).
  destruct (Hsum (repeat (priced_line "line" 1 1000) 11) eq_refl) as (_ & _ & Habove).
  exact (Habove eq_refl).
Defined.

(** Pricing a line with a lookup that is a function: the result is that of
    the same line priced in the one-point world. *)
Lemma toPricedOrderLine_function {W : Type} {fmt : NumberFormat}
  (getProductPrice : ProductCode.t -> M W Price.t) (price : ProductCode.t -> Price.t) :
  (forall p w, getProductPrice p w = (price p, w)) ->
  forall line w,
    toPricedOrderLine getProductPrice line w
    = (fst (toPricedOrderLine (W := unit) (fun p u => (price p, u)) line tt), w).
Proof.
  intros Hprice line w. rewrite !toPricedOrderLine_run. unfold line_product.
  rewrite Hprice. reflexivity.
Qed.

Lemma priceOrder_function {W : Type} {fmt : NumberFormat}
  (getProductPrice : ProductCode.t -> M W Price.t) (price : ProductCode.t -> Price.t) :
  (forall p w, getProductPrice p w = (price p, w)) ->
  forall validatedOrder w,
    priceOrder getProductPrice validatedOrder w
    = (fst (priceOrder (W := unit) (fun p u => (price p, u)) validatedOrder tt), w).
Proof.
  intros Hprice validatedOrder w. rewrite !priceOrder_run. cbn zeta.
  rewrite (mapM_function _ _ (toPricedOrderLine_function _ _ Hprice)).
  rewrite (mapM_function (toPricedOrderLine (W := unit) (fun p u => (price p, u)))
             (fun line =>
                fst (toPricedOrderLine (W := unit) (fun p u => (price p, u)) line tt))).
  - reflexivity.
  - intros line []. rewrite (toPricedOrderLine_function (W := unit) _ price); reflexivity.
Qed.

(** C9: [priceOrder] is pure.  For every price lookup that is a function
    (its answer depends on the product code alone, and it has no effect),
    [priceOrder] is a function of the validated order: applied twice to the
    same order it yields the same priced order (or the same error), and it
    leaves the world as it found it. *)
Theorem priceOrder_pure :
  forall (W : Type) (fmt : NumberFormat) (getProductPrice : ProductCode.t -> M W Price.t),
    is_function getProductPrice ->
    is_function (priceOrder getProductPrice)
    /\ (forall validatedOrder w,
          let first := priceOrder getProductPrice validatedOrder w in
          let second := priceOrder getProductPrice validatedOrder (snd first) in
          fst first = fst second /\ snd second = w).
Proof.
  intros W fmt getProductPrice [price Hprice].
  pose proof (priceOrder_function getProductPrice price Hprice) as Hfun.
  split.
  - exists (fun validatedOrder =>
              fst (priceOrder (W := unit) (fun p u => (price p, u)) validatedOrder tt)).
    exact Hfun.
  - intros validatedOrder w first second. subst first second.
    rewrite !Hfun. cbn [fst snd]. auto.
Qed.

(** C9 at work: a price list that charges 5 for everything, in the world of
    call logs (the lookup itself is not logged here: it has no effect). *)
Lemma priceOrder_pure_witness :
  let order := validated_order [validated_line "line-1" 10; validated_line "line-2" 3] in
  let lookup : ProductCode.t -> M Log Price.t := fun _ log => (5, log) in
  fst (@priceOrder Log sample_format lookup order [])
  = fst (@priceOrder Log sample_format lookup order
           (snd (@priceOrder Log sample_format lookup order []))).
Proof.
  intros order lookup.
  assert (Hfun : is_function lookup) by (exists (fun _ => 5); reflexivity).
  exact (proj1 (proj2 (priceOrder_pure Log sample_format lookup Hfun) order [])).
Defined.

(** C10: when [priceOrder] succeeds, the priced order has the order id, the
    customer info and the two addresses of the validated order, and its
    lines are the validated lines in the same number and order, each with
    its line id, product code and quantity unchanged; the line prices and
    the amount to bill are what is added. *)
Theorem priceOrder_frame :
  forall (W : Type) (fmt : NumberFormat) (getProductPrice : ProductCode.t -> M W Price.t)
         (validatedOrder : ValidatedOrder.t) (w w' : W) (pricedOrder : PricedOrder.t),
    priceOrder getProductPrice validatedOrder w = (inl pricedOrder, w') ->
    PricedOrder.orderId pricedOrder = ValidatedOrder.orderId validatedOrder
    /\ PricedOrder.customerInfo pricedOrder = ValidatedOrder.customerInfo validatedOrder
    /\ PricedOrder.shippingAddress pricedOrder
       = ValidatedOrder.shippingAddress validatedOrder
    /\ PricedOrder.billingAddress pricedOrder
       = ValidatedOrder.billingAddress validatedOrder
    /\ length (PricedOrder.lines pricedOrder)
       = length (ValidatedOrder.lines validatedOrder)
    /\ Forall2 same_line (ValidatedOrder.lines validatedOrder)
         (PricedOrder.lines pricedOrder).
Proof.
  intros W fmt getProductPrice validatedOrder w w' pricedOrder.
  rewrite priceOrder_run. cbn zeta.
  destruct (snd (splitErr (fst (mapM (toPricedOrderLine getProductPrice)
                                  (ValidatedOrder.lines validatedOrder) w))))
    as [|e errs] eqn:Herrs; [|discriminate].
  destruct (BillingAmount.create _) as [amount|e]; [|discriminate].
  intros [= <- _]. cbn.
  apply splitErr_no_error in Herrs.
  destruct (priced_lines_keep_lines _ _ _ _ Herrs) as [Hsame _].
  repeat split; try reflexivity; [|exact Hsame].
  symmetry. exact (Forall2_length Hsame).
Qed.

(** C10 at work: two lines at 5 each. *)
Lemma priceOrder_frame_witness :
  Forall2 same_line
    [validated_line "line-1" 10; validated_line "line-2" 3]
    [priced_line "line-1" 10 50; priced_line "line-2" 3 15].
Proof.
  apply (priceOrder_frame Log sample_format (log_getPrice 5)
           (validated_order [validated_line "line-1" 10; validated_line "line-2" 3])
           [] [CallGetProductPrice widget_W1234; CallGetProductPrice widget_W1234]
           (priced_order [priced_line "line-1" 10 50; priced_line "line-2" 3 15] 65)).
  reflexivity.
Defined.

(* ================================================================== *)
(** ** The validation step *)
(* ================================================================== *)

Lemma mapM_Forall {W A B : Type} (P : B -> Prop) (f : A -> M W B) :
  (forall x w, P (fst (f x w))) ->
  forall xs w, Forall P (fst (mapM f xs w)).
Proof.
  intros Hf xs. induction xs as [|x rest IH]; intros w; [constructor|].
  cbn [mapM]. unfold bind. pose proof (Hf x w) as Hx.
  destruct (f x w) as [y w1]. specialize (IH w1).
  destruct (mapM f rest w1) as [ys w2]. cbn in *. constructor; assumption.
Qed.

Lemma toOrderId_validation (orderIdStr : string) :
  validation_or_value (toOrderId orderIdStr).
Proof. unfold toOrderId. destruct (OrderId.create _ _); cbn; auto. Qed.

Lemma toCustomerInfo_validation (c : UnvalidatedCustomerInfo.t) :
  validation_or_value (toCustomerInfo c).
Proof.
  unfold toCustomerInfo.
  repeat (destruct (String50.create _ _); cbn; auto).
Qed.

Lemma toAddress_validation (a : CheckedAddress) : validation_or_value (toAddress a).
Proof.
  unfold toAddress.
  repeat (destruct (String50.create _ _); cbn; auto).
  destruct (ZipCode.create _ _); cbn; auto.
Qed.

Section Validation.

Context {W : Type} {fmt : NumberFormat}.
Variable checkProductCodeExists : ProductCode.t -> M W bool.
Variable checkAddressExists
  : UnvalidatedAddress.t -> M W (CheckedAddress + AddressValidationError).

Lemma toCheckedAddress_validation (a : UnvalidatedAddress.t) (w : W) :
  validation_or_value (fst (toCheckedAddress checkAddressExists a w)).
Proof.
  unfold toCheckedAddress, bind. destruct (checkAddressExists a w) as [[c|e] w1];
    cbn; auto.
Qed.

Lemma toValidateOrderLine_validation (line : UnvalidatedOrderLine.t) (w : W) :
  validation_or_value (fst (toValidateOrderLine checkProductCodeExists line w)).
Proof.
  unfold toValidateOrderLine, toOrderLineId, toProductCode, toOrderQuantity, bind.
  destruct (OrderLineId.create _ _); cbn; auto.
  destruct (ProductCode.create _ _) as [p|e]; cbn; auto.
  destruct (checkProductCodeExists p w) as [[|] w1]; cbn; auto.
  destruct (OrderQuantity.create _ _ _); cbn; auto.
Qed.

(** The validation, step by step: the order id, the customer, the check and
    the fields of the shipping address, those of the billing address, and
    then all the lines. *)
Lemma validateOrder_run (unvalidatedOrder : UnvalidatedOrder.t) (w : W) :
  validateOrder checkProductCodeExists checkAddressExists unvalidatedOrder w
  = match toOrderId (UnvalidatedOrder.orderId unvalidatedOrder) with
    | inr e => (inr e, w)
    | inl orderId =>
    match toCustomerInfo (UnvalidatedOrder.customerInfo unvalidatedOrder) with
    | inr e => (inr e, w)
    | inl customerInfo =>
    let shippingCheck :=
      toCheckedAddress checkAddressExists
        (UnvalidatedOrder.shippingAddress unvalidatedOrder) w in
    match fst shippingCheck with
    | inr e => (inr e, snd shippingCheck)
    | inl checkedShippingAddress =>
    match toAddress checkedShippingAddress with
    | inr e => (inr e, snd shippingCheck)
    | inl shippingAddress =>
    let billingCheck :=
      toCheckedAddress checkAddressExists
        (UnvalidatedOrder.billingAddress unvalidatedOrder) (snd shippingCheck) in
    match fst billingCheck with
    | inr e => (inr e, snd billingCheck)
    | inl checkedBillingAddress =>
    match toAddress checkedBillingAddress with
    | inr e => (inr e, snd billingCheck)
    | inl billingAddress =>
    let lineRun :=
      mapM (toValidateOrderLine checkProductCodeExists)
        (UnvalidatedOrder.lines unvalidatedOrder) (snd billingCheck) in
    (match snd (splitErr (fst lineRun)) with
     | e :: _ => inr e
     | [] =>
         inl {| ValidatedOrder.orderId := orderId;
                ValidatedOrder.customerInfo := customerInfo;
                ValidatedOrder.shippingAddress := shippingAddress;
                ValidatedOrder.billingAddress := billingAddress;
                ValidatedOrder.lines := fst (splitErr (fst lineRun)) |}
     end,
     snd lineRun)
    end end end end end end.
Proof.
  unfold validateOrder.
  destruct (toOrderId _) as [orderId|e]; [|reflexivity].
  destruct (toCustomerInfo _) as [customerInfo|e]; [|reflexivity].
  unfold bind at 1. cbn zeta.
  destruct (toCheckedAddress checkAddressExists
              (UnvalidatedOrder.shippingAddress unvalidatedOrder) w) as [[cs|e] w1];
    cbn [fst snd]; [|reflexivity].
  destruct (toAddress cs) as [shippingAddress|e]; [|reflexivity].
  unfold bind at 1.
  destruct (toCheckedAddress checkAddressExists
              (UnvalidatedOrder.billingAddress unvalidatedOrder) w1) as [[cb|e] w2];
    cbn [fst snd]; [|reflexivity].
  destruct (toAddress cb) as [billingAddress|e]; [|reflexivity].
  unfold bind at 1.
  destruct (mapM _ _ w2) as [results w3]. cbn [fst snd].
  destruct (splitErr results) as [lines errs]. cbn [fst snd].
  destruct errs; reflexivity.
Qed.

(** Whatever [validateOrder] returns as an error is a validation error. *)
Lemma validateOrder_validation (unvalidatedOrder : UnvalidatedOrder.t) (w : W) :
  validation_or_value
    (fst (validateOrder checkProductCodeExists checkAddressExists unvalidatedOrder w)).
Proof.
  rewrite validateOrder_run. cbn zeta.
  pose proof (toOrderId_validation (UnvalidatedOrder.orderId unvalidatedOrder)) as H1.
  destruct (toOrderId _) as [orderId|e]; [clear H1|exact H1].
  pose proof (toCustomerInfo_validation
                (UnvalidatedOrder.customerInfo unvalidatedOrder)) as H2.
  destruct (toCustomerInfo _) as [customerInfo|e]; [clear H2|exact H2].
  pose proof (toCheckedAddress_validation
                (UnvalidatedOrder.shippingAddress unvalidatedOrder) w) as H3.
  destruct (toCheckedAddress checkAddressExists
              (UnvalidatedOrder.shippingAddress unvalidatedOrder) w) as [[cs|e] w1];
    cbn [fst snd] in *; [clear H3|exact H3].
  pose proof (toAddress_validation cs) as H4.
  destruct (toAddress cs) as [shippingAddress|e]; [clear H4|exact H4].
  pose proof (toCheckedAddress_validation
                (UnvalidatedOrder.billingAddress unvalidatedOrder) w1) as H5.
  destruct (toCheckedAddress checkAddressExists
              (UnvalidatedOrder.billingAddress unvalidatedOrder) w1) as [[cb|e] w2];
    cbn [fst snd] in *; [clear H5|exact H5].
  pose proof (toAddress_validation cb) as H6.
  destruct (toAddress cb) as [billingAddress|e]; [clear H6|exact H6].
  assert (Hlines : Forall validation_or_value
                     (fst (mapM (toValidateOrderLine checkProductCodeExists)
                             (UnvalidatedOrder.lines unvalidatedOrder) w2)))
    by (apply mapM_Forall; exact toValidateOrderLine_validation).
  destruct (snd (splitErr (fst (mapM (toValidateOrderLine checkProductCodeExists)
                                  (UnvalidatedOrder.lines unvalidatedOrder) w2))))
    as [|e errs] eqn:Herrs; cbn [fst]; [exact I|].
  destruct (splitErr_first_error _ _ _ Herrs) as (before & after & Hres).
  rewrite Hres in Hlines. apply Forall_app in Hlines as [_ Hlines].
  inversion Hlines as [|r rs He _]. exact He.
Qed.

End Validation.

(** C3: [validateOrder] stops at the first step that fails (the order id,
    the customer info, the check or the fields of the shipping address, the
    check or the fields of the billing address) and returns the validation
    error of that step, and no validated order; the world is then the one
    the steps before left.  Once these steps have passed, every line is
    validated (one result per line, and the world is the one left after the
    last line), and the error of the first line that failed is returned if
    there is one; otherwise the validated order is returned.  Every error is
    a [Validation] error.  And when the order id is the empty string, the
    whole workflow returns the validation error of the order id in the world
    it started in, whatever the capabilities are: none was called. *)
Theorem validateOrder_first_failure :
  forall (W : Type) (fmt : NumberFormat)
         (checkProductCodeExists : ProductCode.t -> M W bool)
         (checkAddressExists
            : UnvalidatedAddress.t -> M W (CheckedAddress + AddressValidationError))
         (unvalidatedOrder : UnvalidatedOrder.t) (w : W),
    let run := validateOrder checkProductCodeExists checkAddressExists unvalidatedOrder w in
    let shippingCheck :=
      toCheckedAddress checkAddressExists
        (UnvalidatedOrder.shippingAddress unvalidatedOrder) w in
    let billingCheck :=
      toCheckedAddress checkAddressExists
        (UnvalidatedOrder.billingAddress unvalidatedOrder) (snd shippingCheck) in
    let lineRun :=
      mapM (toValidateOrderLine checkProductCodeExists)
        (UnvalidatedOrder.lines unvalidatedOrder) (snd billingCheck) in
    let idIs r := toOrderId (UnvalidatedOrder.orderId unvalidatedOrder) = r in
    let customerIs r :=
      toCustomerInfo (UnvalidatedOrder.customerInfo unvalidatedOrder) = r in
    (forall e, idIs (inr e) -> run = (inr e, w))
    /\ (forall orderId e,
          idIs (inl orderId) -> customerIs (inr e) -> run = (inr e, w))
    /\ (forall orderId customerInfo e,
          idIs (inl orderId) -> customerIs (inl customerInfo) ->
          fst shippingCheck = inr e ->
          run = (inr e, snd shippingCheck))
    /\ (forall orderId customerInfo checkedShipping e,
          idIs (inl orderId) -> customerIs (inl customerInfo) ->
          fst shippingCheck = inl checkedShipping ->
          toAddress checkedShipping = inr e ->
          run = (inr e, snd shippingCheck))
    /\ (forall orderId customerInfo checkedShipping shippingAddress e,
          idIs (inl orderId) -> customerIs (inl customerInfo) ->
          fst shippingCheck = inl checkedShipping ->
          toAddress checkedShipping = inl shippingAddress ->
          fst billingCheck = inr e ->
          run = (inr e, snd billingCheck))
    /\ (forall orderId customerInfo checkedShipping shippingAddress checkedBilling e,
          idIs (inl orderId) -> customerIs (inl customerInfo) ->
          fst shippingCheck = inl checkedShipping ->
          toAddress checkedShipping = inl shippingAddress ->
          fst billingCheck = inl checkedBilling ->
          toAddress checkedBilling = inr e ->
          run = (inr e, snd billingCheck))
    /\ (forall orderId customerInfo checkedShipping shippingAddress checkedBilling
               billingAddress,
          idIs (inl orderId) -> customerIs (inl customerInfo) ->
          fst shippingCheck = inl checkedShipping ->
          toAddress checkedShipping = inl shippingAddress ->
          fst billingCheck = inl checkedBilling ->
          toAddress checkedBilling = inl billingAddress ->
          length (fst lineRun) = length (UnvalidatedOrder.lines unvalidatedOrder)
          /\ snd run = snd lineRun
          /\ (forall before e after,
                fst lineRun = map inl before ++ inr e :: after -> fst run = inr e)
          /\ (forall validatedLines,
                fst lineRun = map inl validatedLines ->
                fst run
                = inl {| ValidatedOrder.orderId := orderId;
                         ValidatedOrder.customerInfo := customerInfo;
                         ValidatedOrder.shippingAddress := shippingAddress;
                         ValidatedOrder.billingAddress := billingAddress;
                         ValidatedOrder.lines := validatedLines |}))
    /\ (forall e, fst run = inr e -> errType e = Validation)
    /\ (UnvalidatedOrder.orderId unvalidatedOrder = EmptyString ->
        forall (getProductPrice : ProductCode.t -> M W Price.t)
               (createOrderAcknowledgmentLetter : PricedOrder.t -> M W HtmlString)
               (sendOrderAcknowledgment : OrderAcknowledgment.t -> M W SendResult),
          placeOrder checkProductCodeExists checkAddressExists getProductPrice
            createOrderAcknowledgmentLetter sendOrderAcknowledgment unvalidatedOrder w
          = (inr (createValidationError
                    "OrderId must not be null or undefined or empty"), w)).
Proof.
  intros W fmt checkProductCodeExists checkAddressExists unvalidatedOrder w
    run shippingCheck billingCheck lineRun idIs customerIs.
  subst idIs customerIs. cbn beta.
  assert (Hrun : run = validateOrder checkProductCodeExists checkAddressExists
                         unvalidatedOrder w) by reflexivity.
  rewrite validateOrder_run in Hrun. cbn zeta in Hrun.
  fold shippingCheck in Hrun. fold billingCheck in Hrun. fold lineRun in Hrun.
  repeat apply conj.
  - intros e H1. rewrite Hrun, H1. reflexivity.
  - intros orderId e H1 H2. rewrite Hrun, H1, H2. reflexivity.
  - intros orderId customerInfo e H1 H2 H3. rewrite Hrun, H1, H2, H3. reflexivity.
  - intros orderId customerInfo cs e H1 H2 H3 H4.
    rewrite Hrun, H1, H2, H3, H4. reflexivity.
  - intros orderId customerInfo cs sa e H1 H2 H3 H4 H5.
    rewrite Hrun, H1, H2, H3, H4, H5. reflexivity.
  - intros orderId customerInfo cs sa cb e H1 H2 H3 H4 H5 H6.
    rewrite Hrun, H1, H2, H3, H4, H5, H6. reflexivity.
  - intros orderId customerInfo cs sa cb ba H1 H2 H3 H4 H5 H6.
    rewrite Hrun, H1, H2, H3, H4, H5, H6. cbn [fst snd].
    split; [apply mapM_length|]. split; [reflexivity|]. split.
    + intros before e after Hres. rewrite Hres, splitErr_error_after_values.
      reflexivity.
    + intros validatedLines Hres. rewrite Hres, splitErr_map_inl. reflexivity.
  - intros e He.
    pose proof (validateOrder_validation checkProductCodeExists checkAddressExists
                  unvalidatedOrder w) as Hv.
    fold run in Hv. rewrite He in Hv. exact Hv.
  - intros Hid getProductPrice createOrderAcknowledgmentLetter sendOrderAcknowledgment.
    unfold placeOrder, bind. fold run. rewrite Hrun, Hid. reflexivity.
Qed.

(** C3 at work, in the world of call logs: an order without an id is
    refused before any capability is called. *)
Lemma validateOrder_first_failure_witness :
  @placeOrder Log sample_format log_checkProduct log_checkAddress (log_getPrice 5)
    log_createLetter (log_send true)
    (sample_order EmptyString [sample_line "line-1" "Wdddd" 10]) []
  = (inr (createValidationError "OrderId must not be null or undefined or empty"), []).
Proof.
  destruct (validateOrder_first_failure Log sample_format log_checkProduct
              log_checkAddress (sample_order EmptyString [sample_line "line-1" "Wdddd" 10]) [])
    as (_ & _ & _ & _ & _ & _ & _ & _ & Hempty).
  exact (Hempty eq_refl (log_getPrice 5) log_createLetter (log_send true)).
Defined.

(** All the lines are validated even when the first one fails: of three
    lines, the first has a product code the widget pattern refuses, the
    second has no line id, and the third is valid.  The error returned is
    that of the first line, and the log shows the product check of the
    third. *)
Example validateOrder_runs_every_line :
  @validateOrder Log sample_format log_checkProduct log_checkAddress
    (sample_order "order-1"
       [sample_line "line-1" "W1234" 10; sample_line EmptyString "Wdddd" 10;
        sample_line "line-3" "Gddd" 10]) []
  = (inr (createValidationError "W1234: Must not be null or empty"),
     [CallCheckAddressExists sample_address; CallCheckAddressExists sample_address;
      CallCheckProductCodeExists (ProductCode.Gizmo {| GizmoCode.code := "Gddd" |})]).
Proof. vm_compute. reflexivity. Qed.

(* ================================================================== *)
(** ** The workflow *)
(* ================================================================== *)

Lemma createEvents_not_empty (pricedOrder : PricedOrder.t)
  (ack : option OrderAcknowledgmentSent.t) :
  createEvents pricedOrder ack <> [].
Proof.
  unfold createEvents. destruct ack; cbn; discriminate.
Qed.

(** Whatever [priceOrder] returns as an error is a pricing error. *)
Lemma priceOrder_pricing {W : Type} {fmt : NumberFormat}
  (getProductPrice : ProductCode.t -> M W Price.t) (validatedOrder : ValidatedOrder.t)
  (w : W) (e : Err) :
  fst (priceOrder getProductPrice validatedOrder w) = inr e -> errType e = Pricing.
Proof.
  rewrite priceOrder_run. cbn zeta. cbn [fst].
  destruct (snd (splitErr _)) as [|e0 errs].
  - destruct (BillingAmount.create _); [discriminate|]. intros [= <-]. reflexivity.
  - intros [= <-]. reflexivity.
Qed.

(** C1: for every unvalidated order and all capabilities, the result of
    [placeOrder] is a non-empty list of events, or a validation error, or a
    pricing error.  An error of [validateOrder] is returned as it is, and
    nothing runs after it; so is an error of [priceOrder].  Once both steps
    have passed, the acknowledgment step returns an optional event, never an
    error, and the workflow returns the events made from it. *)
Theorem placeOrder_result :
  forall (W : Type) (fmt : NumberFormat)
         (checkProductExists : ProductCode.t -> M W bool)
         (checkAddressExists
            : UnvalidatedAddress.t -> M W (CheckedAddress + AddressValidationError))
         (getProductPrice : ProductCode.t -> M W Price.t)
         (createOrderAcknowledgmentLetter : PricedOrder.t -> M W HtmlString)
         (sendOrderAcknowledgment : OrderAcknowledgment.t -> M W SendResult)
         (unvalidatedOrder : UnvalidatedOrder.t) (w : W),
    let run :=
      placeOrder checkProductExists checkAddressExists getProductPrice
        createOrderAcknowledgmentLetter sendOrderAcknowledgment unvalidatedOrder w in
    let validated := validateOrder checkProductExists checkAddressExists unvalidatedOrder w in
    ((exists events, fst run = inl events /\ events <> [])
     \/ (exists e, fst run = inr e /\ errType e = Validation)
     \/ (exists e, fst run = inr e /\ errType e = Pricing))
    /\ (forall e, fst validated = inr e -> run = (inr e, snd validated))
    /\ (forall validatedOrder,
          fst validated = inl validatedOrder ->
          let priced := priceOrder getProductPrice validatedOrder (snd validated) in
          (forall e, fst priced = inr e -> run = (inr e, snd priced))
          /\ (forall pricedOrder,
                fst priced = inl pricedOrder ->
                let acknowledged :=
                  acknowledgeOrder createOrderAcknowledgmentLetter
                    sendOrderAcknowledgment pricedOrder (snd priced) in
                run = (inl (createEvents pricedOrder (fst acknowledged)),
                       snd acknowledged)
                /\ createEvents pricedOrder (fst acknowledged) <> [])).
Proof.
  intros W fmt checkProductExists checkAddressExists getProductPrice
    createOrderAcknowledgmentLetter sendOrderAcknowledgment unvalidatedOrder w
    run validated.
  assert (Hrun : run
                 = match fst validated with
                   | inr e => (inr e, snd validated)
                   | inl validatedOrder =>
                       let priced :=
                         priceOrder getProductPrice validatedOrder (snd validated) in
                       match fst priced with
                       | inr e => (inr e, snd priced)
                       | inl pricedOrder =>
                           let acknowledged :=
                             acknowledgeOrder createOrderAcknowledgmentLetter
                               sendOrderAcknowledgment pricedOrder (snd priced) in
                           (inl (createEvents pricedOrder (fst acknowledged)),
                            snd acknowledged)
                       end
                   end).
  { subst run validated. unfold placeOrder. unfold bind at 1.
    destruct (validateOrder _ _ _ w) as [[vo|e] w1]; cbn [fst snd]; [|reflexivity].
    unfold bind at 1. cbn zeta.
    destruct (priceOrder getProductPrice vo w1) as [[po|e] w2]; cbn [fst snd];
      [|reflexivity].
    unfold bind at 1. destruct (acknowledgeOrder _ _ po w2) as [ack w3]. reflexivity. }
  split; [|split].
  - rewrite Hrun.
    pose proof (validateOrder_validation checkProductExists checkAddressExists
                  unvalidatedOrder w) as Hv.
    fold validated in Hv.
    destruct (fst validated) as [vo|e].
    + cbn zeta.
      pose proof (priceOrder_pricing getProductPrice vo (snd validated)) as Hp.
      destruct (fst (priceOrder getProductPrice vo (snd validated))) as [po|e].
      * left. eexists. split; [reflexivity|]. apply createEvents_not_empty.
      * right. right. exists e. split; [reflexivity | apply Hp; reflexivity].
    + right. left. exists e. split; [reflexivity | exact Hv].
  - intros e He. rewrite Hrun, He. reflexivity.
  - intros validatedOrder Hvo priced. split.
    + intros e He. rewrite Hrun, Hvo. cbn zeta. fold priced. rewrite He. reflexivity.
    + intros pricedOrder Hpo acknowledged. split; [|apply createEvents_not_empty].
      rewrite Hrun, Hvo. cbn zeta. fold priced. rewrite Hpo. reflexivity.
Qed.

(** The workflow from end to end, in the world of call logs: one widget
    line of 10 units at 5 each, with an acknowledgment that is sent.  The
    events are the acknowledgment, the order placed and the billable order,
    for an amount of 50. *)
Example placeOrder_end_to_end :
  let pricedOrder :=
    {| PricedOrder.orderId := "order-1";
       PricedOrder.customerInfo := sample_customerInfo;
       PricedOrder.shippingAddress := sample_validated_address;
       PricedOrder.billingAddress := sample_validated_address;
       PricedOrder.amountToBill := 50;
       PricedOrder.lines :=
         [{| PricedOrderLine.orderLineId := "line-1";
             PricedOrderLine.productCode :=
               ProductCode.Widget {| WidgetCode.code := "Wdddd" |};
             PricedOrderLine.quantity :=
               OrderQuantity.Unit {| UnitQuantity.quantity := 10 |};
             PricedOrderLine.linePrice := 50 |}] |} in
  fst (@placeOrder Log sample_format log_checkProduct log_checkAddress (log_getPrice 5)
         log_createLetter (log_send true)
         (sample_order "order-1" [sample_line "line-1" "Wdddd" 10]) [])
  = inl [EvOrderAcknowledgmentSent
           {| OrderAcknowledgmentSent.orderId := "order-1";
              OrderAcknowledgmentSent.emailAddress := "ada@example.com" |};
         EvOrderPlaced pricedOrder;
         EvBillableOrderPlaced
           {| BillableOrderPlaced.orderId := "order-1";
              BillableOrderPlaced.billingAddress := sample_validated_address;
              BillableOrderPlaced.amountToBill := 50 |}].
Proof. vm_compute. reflexivity. Qed.

(* ================================================================== *)
(** ** Further properties: the pattern matcher *)
(* ================================================================== *)

Lemma match_prefix_nil (s : string) : match_prefix [] s = false.
Proof. induction s as [|c s IH]; [reflexivity|]. cbn. exact IH. Qed.

Lemma prefix_empty (s : string) : String.prefix EmptyString s = true.
Proof. destruct s; reflexivity. Qed.

Lemma prefix_cons (a c : ascii) (w s : string) :
  String.prefix (String a w) (String c s) = Ascii.eqb a c && String.prefix w s.
Proof.
  cbn. destruct (ascii_dec a c) as [->|Hne].
  - rewrite Ascii.eqb_refl. reflexivity.
  - apply Ascii.eqb_neq in Hne. rewrite Hne. reflexivity.
Qed.

Lemma prefix_spec (w s : string) :
  String.prefix w s = true <-> exists post, s = (w ++ post)%string.
Proof.
  revert s. induction w as [|a w IH]; intros s.
  - rewrite prefix_empty. split; [intros _; exists s; reflexivity | reflexivity].
  - destruct s as [|c s].
    + cbn. split; [discriminate | intros [post H]; discriminate].
    + rewrite prefix_cons, andb_true_iff, Ascii.eqb_eq, IH. split.
      * intros [-> [post ->]]. exists post. reflexivity.
      * intros [post H]. cbn in H. injection H as -> ->. split; [reflexivity | eauto].
Qed.

(** [contains w s] says that [s] is some text, then [w], then some text. *)
Lemma contains_spec (w s : string) :
  contains w s = true <-> exists pre post, s = (pre ++ w ++ post)%string.
Proof.
  induction s as [|c s IH]; cbn [contains]; rewrite orb_true_iff, prefix_spec.
  - split.
    + intros [[post H]|H]; [|discriminate]. exists EmptyString, post. exact H.
    + intros (pre & post & H). left. destruct pre as [|a pre]; [|discriminate].
      exists post. exact H.
  - rewrite IH. split.
    + intros [[post H]|(pre & post & ->)].
      * exists EmptyString, post. exact H.
      * exists (String c pre), post. reflexivity.
    + intros (pre & post & H). destruct pre as [|a pre].
      * left. exists post. exact H.
      * right. cbn in H. injection H as -> ->. eauto.
Qed.

(** The pattern [c{n}] matches at the start of [s] exactly when [s] starts
    with [n] characters [c]. *)
Lemma match_prefix_repeat (n : nat) (c : ascii) (s : string) :
  match_prefix [[RRepeat n (RChr c)]] s = String.prefix (repeat_char n c) s.
Proof.
  revert s. induction n as [|k IH]; intros s.
  - cbn [repeat_char]. rewrite prefix_empty. destruct s; reflexivity.
  - destruct s as [|a s]; [reflexivity|].
    cbn [repeat_char]. rewrite prefix_cons.
    cbn [match_prefix existsb nullable_seq nullable andb orb flat_map deriv_seq deriv
         repeat_alts map app].
    destruct (Ascii.eqb c a); cbn [map app andb].
    + apply IH.
    + apply match_prefix_nil.
Qed.

Lemma match_prefix_chr_repeat (c0 : ascii) (n : nat) (c : ascii) (s : string) :
  match_prefix [[RChr c0; RRepeat (S n) (RChr c)]] s
  = String.prefix (String c0 (repeat_char (S n) c)) s.
Proof.
  destruct s as [|a s]; [reflexivity|].
  rewrite prefix_cons.
  cbn [match_prefix existsb nullable_seq nullable andb orb flat_map deriv_seq deriv
       map app].
  destruct (Ascii.eqb c0 a); cbn [map app andb].
  - apply match_prefix_repeat.
  - apply match_prefix_nil.
Qed.

(** A pattern that matches at a position exactly where the word [w] starts
    is found in exactly the strings that contain [w]. *)
Lemma search_contains (p : Pattern) (w : string) :
  (forall s, match_prefix [p] s = String.prefix w s) ->
  forall s, search p s = contains w s.
Proof.
  intros Hp s. induction s as [|a s IH]; cbn [search contains]; rewrite Hp.
  - reflexivity.
  - rewrite IH. reflexivity.
Qed.

(** A literal character of the pattern has to be read: a pattern with the
    atom [c] is not yet matched, and stays with that atom as long as the
    characters read differ from [c]. *)
Lemma literal_not_nullable (c : ascii) (p : Pattern) :
  In (RChr c) p -> nullable_seq p = false.
Proof.
  induction p as [|r p IH]; [intros []|].
  intros [->|Hin]; cbn [nullable_seq nullable]; [reflexivity|].
  rewrite (IH Hin). apply andb_false_r.
Qed.

Lemma literal_kept (c a : ascii) (p : Pattern) :
  Ascii.eqb c a = false -> In (RChr c) p ->
  Forall (fun q => In (RChr c) q) (deriv_seq a p).
Proof.
  intros Hne. induction p as [|r p IH]; [intros []|].
  intros [->|Hin]; cbn [deriv_seq deriv nullable].
  - rewrite Hne. constructor.
  - apply Forall_app. split.
    + apply Forall_forall. intros q Hq. apply in_map_iff in Hq as (q0 & <- & _).
      apply in_or_app. right. exact Hin.
    + destruct (nullable r); [exact (IH Hin) | constructor].
Qed.

Lemma match_prefix_needs_literal (c : ascii) (alts : list Pattern) (s : string) :
  has_char c s = false -> Forall (fun q => In (RChr c) q) alts ->
  match_prefix alts s = false.
Proof.
  revert alts. induction s as [|a s IH]; intros alts Hs Halts.
  - cbn [match_prefix]. rewrite orb_false_r.
    induction Halts as [|q alts Hq _ IHa]; [reflexivity|].
    cbn [existsb]. rewrite (literal_not_nullable c q Hq). exact IHa.
  - cbn [has_char] in Hs. apply orb_false_iff in Hs as [Hne Hs].
    cbn [match_prefix].
    assert (Hnull : existsb nullable_seq alts = false).
    { clear IH. induction Halts as [|q alts Hq _ IHa]; [reflexivity|].
      cbn [existsb]. rewrite (literal_not_nullable c q Hq). exact IHa. }
    rewrite Hnull. cbn [orb]. apply IH; [exact Hs|].
    clear Hnull IH. induction Halts as [|q alts Hq _ IHa]; cbn [flat_map]; [constructor|].
    apply Forall_app. split; [|exact IHa].
    apply literal_kept; [|exact Hq].
    rewrite Ascii.eqb_sym. exact Hne.
Qed.

(** A pattern with a literal character [c] among its atoms is found only
    in strings in which [c] occurs. *)
Lemma search_needs_literal (c : ascii) (p : Pattern) (s : string) :
  In (RChr c) p -> search p s = true -> has_char c s = true.
Proof.
  intros Hin. induction s as [|a s IH]; cbn [search has_char].
  - rewrite orb_false_r. intros H.
    rewrite (match_prefix_needs_literal c [p] EmptyString eq_refl) in H;
      [discriminate | constructor; [exact Hin | constructor]].
  - intros H. destruct (Ascii.eqb a c) eqn:Hac; [reflexivity|]. cbn [orb].
    destruct (has_char c s) eqn:Hs; [reflexivity|].
    apply orb_true_iff in H as [H|H]; [|exact (IH H)].
    rewrite (match_prefix_needs_literal c [p] (String a s)) in H; [discriminate| |].
    + cbn [has_char]. rewrite Hac, Hs. reflexivity.
    + constructor; [exact Hin | constructor].
Qed.

(** A string of digits does not start with a letter. *)
Lemma digits_only_no_prefix (w s : string) (c : ascii) :
  is_digit c = false -> digits_only s = true ->
  String.prefix (String c w) s = false.
Proof.
  intros Hc. destruct s as [|a s]; [reflexivity|].
  cbn [digits_only]. intros H. apply andb_true_iff in H as [Ha _].
  rewrite prefix_cons.
  destruct (Ascii.eqb_spec c a) as [<-|_]; [congruence | reflexivity].
Qed.

(** A string of digits contains no letter. *)
Lemma digits_only_no_letter (w s : string) (c : ascii) :
  is_digit c = false -> digits_only s = true ->
  contains (String c w) s = false.
Proof.
  intros Hc. induction s as [|a s IH]; [reflexivity|].
  cbn [digits_only contains]. intros H. apply andb_true_iff in H as [Ha Hs].
  rewrite prefix_cons, (IH Hs), orb_false_r.
  destruct (Ascii.eqb_spec c a) as [<-|_]; [congruence | reflexivity].
Qed.

(* ================================================================== *)
(** ** Further properties: the constrained strings *)
(* ================================================================== *)

(** X1: [createString] accepts exactly the strings that are not empty and
    have at most [maxLen] characters, and returns them unchanged.  It
    answers [Empty] exactly for [null], [undefined] and the empty string,
    and [TooLong] exactly for a string of more than [maxLen] characters;
    it has no other outcome. *)
Theorem createString_outcomes :
  forall (fieldName : string) (maxLen : nat) (v : JsString),
    match ConstrainedType.createString fieldName maxLen v with
    | inl s => v = JsStr s /\ bounded_string maxLen s
    | inr e =>
        (errType e = Empty
         /\ (v = JsNull \/ v = JsUndefined \/ v = JsStr EmptyString))
        \/ (errType e = TooLong
            /\ exists s, v = JsStr s /\ (maxLen < String.length s)%nat)
    end.
Proof.
  intros fieldName maxLen v. unfold ConstrainedType.createString, bounded_string.
  destruct v as [| |s]; cbn [ConstrainedType.isEmptyString includes_null_undefined_empty];
    [left; auto | left; auto |].
  destruct s as [|c s]; [left; auto|].
  cbn [chars]. destruct (Nat.ltb_spec maxLen (String.length (String c s))) as [Hlt|Hle].
  - right. split; [reflexivity|]. eexists. split; [reflexivity | exact Hlt].
  - split; [reflexivity|]. split; [discriminate | exact Hle].
Qed.

Lemma createString_accepts (fieldName : string) (maxLen : nat) (v : JsString)
  (s : string) :
  ConstrainedType.createString fieldName maxLen v = inl s
  <-> v = JsStr s /\ bounded_string maxLen s.
Proof.
  unfold ConstrainedType.createString, bounded_string. split.
  - destruct v as [| |s0]; cbn [ConstrainedType.isEmptyString
      includes_null_undefined_empty]; try discriminate.
    destruct s0 as [|c s0]; [discriminate|]. cbn [chars].
    destruct (Nat.ltb_spec maxLen (String.length (String c s0))) as [Hlt|Hle];
      [discriminate|].
    intros [= <-]. split; [reflexivity|]. split; [discriminate | exact Hle].
  - intros [-> [Hne Hlen]].
    destruct s as [|c s]; [congruence|].
    cbn [ConstrainedType.isEmptyString includes_null_undefined_empty chars].
    apply Nat.ltb_ge in Hlen. rewrite Hlen. reflexivity.
Qed.

(** X2: the three string types of the orders ([String50], [OrderId],
    [OrderLineId]) accept exactly the non-empty strings of at most 50
    characters, unchanged.  In particular an order id may have 50
    characters. *)
Theorem bounded_string_types_accept_50 :
  forall (fieldName : string) (v : JsString) (s : string),
    (String50.create fieldName v = inl s <-> v = JsStr s /\ bounded_string 50 s)
    /\ (OrderId.create fieldName v = inl s <-> v = JsStr s /\ bounded_string 50 s)
    /\ (OrderLineId.create fieldName v = inl s <-> v = JsStr s /\ bounded_string 50 s)
    /\ OrderId.create fieldName (JsStr (repeat_char 50 "9")) = inl (repeat_char 50 "9").
Proof.
  intros fieldName v s.
  split; [exact (createString_accepts fieldName 50 v s)|].
  split; [exact (createString_accepts fieldName 50 v s)|].
  split; [exact (createString_accepts fieldName 50 v s) | reflexivity].
Qed.

(** What [createLike] does with a string that is not empty. *)
Lemma createLike_accepts (fieldName : string) (pattern : option Pattern)
  (v : JsString) (s : string) :
  ConstrainedType.createLike fieldName pattern v = inl s
  <-> v = JsStr s /\ s <> EmptyString /\ test pattern v = true.
Proof.
  unfold ConstrainedType.createLike. split.
  - destruct v as [| |s0]; cbn [ConstrainedType.isEmptyString
      includes_null_undefined_empty]; try discriminate.
    destruct s0 as [|c s0]; [discriminate|].
    destruct (test pattern (JsStr (String c s0))); cbn [negb chars]; [|discriminate].
    intros [= <-]. repeat split. discriminate.
  - intros (-> & Hne & Ht). destruct s as [|c s]; [congruence|].
    cbn [ConstrainedType.isEmptyString includes_null_undefined_empty].
    rewrite Ht. reflexivity.
Qed.

Lemma zip_pattern_search (s : string) :
  test (RegExp (literal "\d{5}")) (JsStr s) = contains (repeat_char 5 "d") s.
Proof.
  change (search [RRepeat 5 (RChr "d")] s = contains (repeat_char 5 "d") s).
  apply search_contains. intros s0. apply match_prefix_repeat.
Qed.

Lemma widget_pattern_search (s : string) :
  test (RegExp (literal "W\d{4}")) (JsStr s) = contains "Wdddd" s.
Proof.
  change (search [RChr "W"; RRepeat 4 (RChr "d")] s
          = contains (String "W" (repeat_char 4 "d")) s).
  apply search_contains. intros s0. apply match_prefix_chr_repeat.
Qed.

Lemma gizmo_pattern_search (s : string) :
  test (RegExp (literal "G\d{3}")) (JsStr s) = contains "Gddd" s.
Proof.
  change (search [RChr "G"; RRepeat 3 (RChr "d")] s
          = contains (String "G" (repeat_char 3 "d")) s).
  apply search_contains. intros s0. apply match_prefix_chr_repeat.
Qed.

Lemma contains_not_empty (w s : string) :
  w <> EmptyString -> contains w s = true -> s <> EmptyString.
Proof.
  intros Hw H ->. destruct w; [congruence | discriminate].
Qed.

Lemma ZipCode_create_iff (fieldName s z : string) :
  ZipCode.create fieldName (JsStr s) = inl z <-> z = s /\ contains "ddddd" s = true.
Proof.
  unfold ZipCode.create.
  rewrite createLike_accepts, zip_pattern_search. cbn [repeat_char]. split.
  - intros ([= ->] & _ & H). auto.
  - intros [-> H]. repeat split; [|exact H].
    apply (contains_not_empty "ddddd"); [discriminate | exact H].
Qed.

(** X3: [ZipCode.create] accepts exactly the strings in which five letters
    [d] follow each other, and returns them unchanged; it accepts no string
    made of digits only. *)
Theorem ZipCode_create_accepts :
  forall (fieldName : string) (s z : string),
    (ZipCode.create fieldName (JsStr s) = inl z
     <-> z = s /\ contains "ddddd" s = true)
    /\ (digits_only s = true ->
        exists e, ZipCode.create fieldName (JsStr s) = inr e).
Proof.
  intros fieldName s z. split; [apply ZipCode_create_iff|].
  intros Hd.
  destruct (ZipCode.create fieldName (JsStr s)) as [z0|e] eqn:Hc; [|eauto].
  apply ZipCode_create_iff in Hc as [_ Ht].
  rewrite (digits_only_no_letter "dddd" s "d" eq_refl Hd) in Ht. discriminate.
Qed.

Lemma ProductCode_create_iff (fieldName code : string) (p : ProductCode.t) :
  ProductCode.create fieldName code = inl p
  <-> (startsWith code "W" = true /\ contains "Wdddd" code = true
       /\ p = ProductCode.Widget {| WidgetCode.code := code |})
      \/ (startsWith code "G" = true /\ contains "Gddd" code = true
          /\ p = ProductCode.Gizmo {| GizmoCode.code := code |}).
Proof.
  unfold ProductCode.create, WidgetCode.create, GizmoCode.create.
  destruct (startsWith code "W") eqn:HW.
  - destruct (ConstrainedType.createLike fieldName (RegExp (literal "W\d{4}"))
                (JsStr code)) as [c|e] eqn:Hc.
    + apply createLike_accepts in Hc as ([= <-] & _ & Ht).
      rewrite widget_pattern_search in Ht. split.
      * intros [= <-]. left. auto.
      * intros [(_ & _ & ->)|(HG & _)]; [reflexivity|].
        destruct code as [|a code]; [discriminate|]. cbn in HW, HG.
        apply Ascii.eqb_eq in HW, HG. congruence.
    + split; [discriminate|].
      intros [(_ & Hcont & _)|(HG & _)].
      * assert (Hok : ConstrainedType.createLike fieldName
                        (RegExp (literal "W\d{4}")) (JsStr code) = inl code).
        { apply createLike_accepts. repeat split.
          - apply (contains_not_empty "Wdddd"); [discriminate | exact Hcont].
          - rewrite widget_pattern_search. exact Hcont. }
        congruence.
      * destruct code as [|a code]; [discriminate|]. cbn in HW, HG.
        apply Ascii.eqb_eq in HW, HG. congruence.
  - destruct (startsWith code "G") eqn:HG.
    + destruct (ConstrainedType.createLike fieldName (RegExp (literal "G\d{3}"))
                  (JsStr code)) as [c|e] eqn:Hc.
      * apply createLike_accepts in Hc as ([= <-] & _ & Ht).
        rewrite gizmo_pattern_search in Ht. split.
        -- intros [= <-]. right. auto.
        -- intros [(HW' & _)|(_ & _ & ->)]; [discriminate | reflexivity].
      * split; [discriminate|].
        intros [(HW' & _)|(_ & Hcont & _)]; [discriminate|].
        assert (Hok : ConstrainedType.createLike fieldName
                        (RegExp (literal "G\d{3}")) (JsStr code) = inl code).
        { apply createLike_accepts. repeat split.
          - apply (contains_not_empty "Gddd"); [discriminate | exact Hcont].
          - rewrite gizmo_pattern_search. exact Hcont. }
        congruence.
    + split; [discriminate|].
      intros [(HW' & _)|(HG' & _)]; discriminate.
Qed.

(** X4: [ProductCode.create] accepts a code exactly when it starts with [W]
    and contains [Wdddd], as a widget, or starts with [G] and contains
    [Gddd], as a gizmo; the code accepted is kept unchanged as the value of
    the product code.  No code made of a letter followed by digits only is
    accepted. *)
Theorem ProductCode_create_accepts :
  forall (fieldName code : string) (p : ProductCode.t),
    (ProductCode.create fieldName code = inl p
     <-> (startsWith code "W" = true /\ contains "Wdddd" code = true
          /\ p = ProductCode.Widget {| WidgetCode.code := code |})
         \/ (startsWith code "G" = true /\ contains "Gddd" code = true
             /\ p = ProductCode.Gizmo {| GizmoCode.code := code |}))
    /\ (ProductCode.create fieldName code = inl p -> ProductCode.value p = code)
    /\ (forall (c : ascii) (digits : string),
          code = String c digits -> digits_only digits = true ->
          exists e, ProductCode.create fieldName code = inr e).
Proof.
  intros fieldName code p. split; [apply ProductCode_create_iff|]. split.
  - intros H. apply ProductCode_create_iff in H as [(_ & _ & ->)|(_ & _ & ->)];
      reflexivity.
  - intros c digits -> Hd.
    destruct (ProductCode.create fieldName (String c digits)) as [q|e] eqn:Hc;
      [|eauto].
    exfalso.
    apply ProductCode_create_iff in Hc as [(_ & Hcont & _)|(_ & Hcont & _)];
      cbn [contains] in Hcont; rewrite prefix_cons in Hcont;
      rewrite (digits_only_no_prefix _ digits "d" eq_refl Hd) in Hcont;
      rewrite andb_false_r in Hcont; cbn [orb] in Hcont.
    + rewrite (digits_only_no_letter "dddd" digits "W" eq_refl Hd) in Hcont.
      discriminate.
    + rewrite (digits_only_no_letter "ddd" digits "G" eq_refl Hd) in Hcont.
      discriminate.
Qed.

(** X5: [EmailAddress.create] returns the address unchanged, and accepts
    only addresses in which both [@] and the closing bracket []] occur: an
    address without a closing bracket is never accepted. *)
Theorem EmailAddress_create_needs_bracket :
  forall (fieldName : string) (v : JsString) (s : string),
    EmailAddress.create fieldName v = inl s ->
    v = JsStr s /\ has_char "@" s = true /\ has_char "]" s = true.
Proof.
  intros fieldName v s H. unfold EmailAddress.create in H.
  apply createLike_accepts in H as (-> & _ & Ht).
  change (search [RPlus RAny; RChr "@"; RPlus RAny; RChr "]"] s = true) in Ht.
  repeat split.
  - apply (search_needs_literal "@" _ s) in Ht; [exact Ht|]. cbn. tauto.
  - apply (search_needs_literal "]" _ s) in Ht; [exact Ht|]. cbn. tauto.
Qed.

Lemma EmailAddress_create_needs_bracket_witness :
  JsStr "ada@example.com]" = JsStr "ada@example.com]"
  /\ has_char "@" "ada@example.com]" = true
  /\ has_char "]" "ada@example.com]" = true.
Proof.
  apply (EmailAddress_create_needs_bracket "EmailAddress" (JsStr "ada@example.com]")).
  reflexivity.
Defined.

(* ================================================================== *)
(** ** Further properties: the constrained numbers *)
(* ================================================================== *)

Lemma SFcompare_defined (a b : spec_float) :
  a <> S754_nan -> b <> S754_nan -> exists c, SFcompare a b = Some c.
Proof.
  destruct a, b; cbn; intros Ha Hb; try congruence; eauto.
Qed.

Lemma is_nan_false (x : float) : is_nan x = false -> Prim2SF x <> S754_nan.
Proof.
  unfold is_nan. rewrite FloatAxioms.eqb_spec. unfold SFeqb. intros H Hnan.
  rewrite Hnan in H. discriminate.
Qed.

Lemma isInteger_not_nan (x : float) :
  Number_isInteger x = true -> Prim2SF x <> S754_nan.
Proof.
  unfold Number_isInteger. destruct (Prim2SF x); congruence.
Qed.

(** Between two numbers, [a < b] fails exactly when [b <= a] holds. *)
Lemma not_ltb_leb (a b : float) :
  Prim2SF a <> S754_nan -> Prim2SF b <> S754_nan ->
  (a <? b) = false -> (b <=? a) = true.
Proof.
  intros Ha Hb. rewrite ltb_spec, leb_spec. unfold SFltb, SFleb.
  destruct (SFcompare_defined _ _ Ha Hb) as [c Hc]. rewrite Hc.
  rewrite (SFcompare_antisym _ _ _ Hc).
  destruct c; cbn; congruence.
Qed.

Lemma createInt_success {fmt : NumberFormat} (fieldName : string)
  (lo hi i v : float) :
  is_nan lo = false -> is_nan hi = false ->
  ConstrainedType.createInt fieldName lo hi i = inl v ->
  v = i /\ bounded_integral lo hi v.
Proof.
  intros Hlo Hhi. unfold ConstrainedType.createInt, bounded_integral.
  destruct (i <? lo) eqn:H1; [discriminate|].
  destruct (hi <? i) eqn:H2; [discriminate|].
  destruct (Number_isInteger i) eqn:H3; [|discriminate].
  cbn [negb]. intros [= <-]. split; [reflexivity|]. split; [exact H3|].
  pose proof (isInteger_not_nan _ H3) as Hi.
  split; apply not_ltb_leb; auto using is_nan_false.
Qed.

Lemma createDecimal_success {fmt : NumberFormat} (fieldName : string)
  (lo hi i v : float) :
  is_nan lo = false -> is_nan hi = false ->
  ConstrainedType.createDecimal fieldName lo hi i = inl v ->
  v = i /\ bounded_integral lo hi v.
Proof.
  intros Hlo Hhi. unfold ConstrainedType.createDecimal, bounded_integral.
  destruct (i <? lo) eqn:H1; [discriminate|].
  destruct (hi <? i) eqn:H2; [discriminate|].
  destruct (Number_isInteger i) eqn:H3; [|discriminate].
  cbn [negb]. intros [= <-]. split; [reflexivity|]. split; [exact H3|].
  pose proof (isInteger_not_nan _ H3) as Hi.
  split; apply not_ltb_leb; auto using is_nan_false.
Qed.

(** X6: a number a bounded constructor returns is the input itself, is
    integral, and lies within the bounds the constructor was given (for
    bounds that are numbers): so every unit quantity is an integer of
    [1, 1000], every kilogram quantity an integer of [0.5, 100], every price
    an integer of [0, 1000] and every billing amount an integer of
    [0, 10000].  In particular [createDecimal] returns no value with a
    fractional part, and no constructor returns NaN or an infinity. *)
Theorem bounded_constructors_invariant :
  forall (fmt : NumberFormat) (fieldName : string) (i : float),
    (forall lo hi v, is_nan lo = false -> is_nan hi = false ->
       ConstrainedType.createInt fieldName lo hi i = inl v ->
       v = i /\ bounded_integral lo hi v)
    /\ (forall lo hi v, is_nan lo = false -> is_nan hi = false ->
          ConstrainedType.createDecimal fieldName lo hi i = inl v ->
          v = i /\ bounded_integral lo hi v)
    /\ (forall u, UnitQuantity.create fieldName i = inl u ->
          UnitQuantity.value u = i /\ bounded_integral 1 1000 i)
    /\ (forall k, KilogramQuantity.create fieldName i = inl k ->
          KilogramQuantity.value k = i /\ bounded_integral 0.5 100 i)
    /\ (forall p, Price.create i = inl p -> p = i /\ bounded_integral 0 1000 i)
    /\ (forall a, BillingAmount.create i = inl a ->
          a = i /\ bounded_integral 0 10000 i).
Proof.
  intros fmt fieldName i. repeat apply conj.
  - intros lo hi v. apply createInt_success.
  - intros lo hi v. apply createDecimal_success.
  - intros u. unfold UnitQuantity.create.
    destruct (ConstrainedType.createInt fieldName 1 1000 i) as [q|e] eqn:Hc;
      [|discriminate].
    intros [= <-]. apply createInt_success in Hc as [-> H]; auto.
  - intros k. unfold KilogramQuantity.create.
    destruct (ConstrainedType.createDecimal fieldName 0.5 100 i) as [q|e] eqn:Hc;
      [|discriminate].
    intros [= <-]. apply createDecimal_success in Hc as [-> H]; auto.
  - intros p Hc. apply createDecimal_success in Hc as [-> H]; auto.
  - intros a Hc. apply createDecimal_success in Hc as [-> H]; auto.
Qed.

(** The invariant at work: the price 250. *)
Lemma bounded_constructors_invariant_witness :
  (250 : float) = 250 /\ bounded_integral 0 1000 250.
Proof.
  destruct (bounded_constructors_invariant sample_format "Price" 250)
    as (_ & _ & _ & _ & Hprice & _).
  apply Hprice. reflexivity.
Defined.

(** X7: the quantity [OrderQuantity.create] returns has the variant of the
    product code it was given, a unit quantity for a widget and a kilogram
    quantity for a gizmo, and its value is the number given, an integer
    within the range of that variant. *)
Theorem OrderQuantity_create_invariant :
  forall (fmt : NumberFormat) (fieldName : string) (productCode : ProductCode.t)
         (v : float) (q : OrderQuantity.t),
    OrderQuantity.create fieldName productCode v = inl q ->
    OrderQuantity.value q = v
    /\ match productCode, q with
       | ProductCode.Widget _, OrderQuantity.Unit _ => bounded_integral 1 1000 v
       | ProductCode.Gizmo _, OrderQuantity.Kilogram _ => bounded_integral 0.5 100 v
       | _, _ => False
       end.
Proof.
  intros fmt fieldName productCode v q.
  destruct productCode as [w|g];
    cbn [OrderQuantity.create UnitQuantity.create KilogramQuantity.create].
  - unfold UnitQuantity.create.
    destruct (ConstrainedType.createInt fieldName 1 1000 v) as [u|e] eqn:Hc;
      [|discriminate].
    intros [= <-]. apply createInt_success in Hc as [-> Hb]; auto.
  - unfold KilogramQuantity.create.
    destruct (ConstrainedType.createDecimal fieldName 0.5 100 v) as [k|e] eqn:Hc;
      [|discriminate].
    intros [= <-]. apply createDecimal_success in Hc as [-> Hb]; auto.
Qed.

Lemma OrderQuantity_create_invariant_witness :
  (3 : float) = 3 /\ bounded_integral 0.5 100 3.
Proof.
  apply (OrderQuantity_create_invariant sample_format "OrderQuantity" gizmo_G123 3
           (OrderQuantity.Kilogram {| KilogramQuantity.quantity := 3 |})).
  reflexivity.
Defined.

(* ================================================================== *)
(** ** Further properties: the fields of the customer and of the address *)
(* ================================================================== *)

Lemma String50_create_iff (fieldName s s' : string) :
  String50.create fieldName (JsStr s) = inl s' <-> s' = s /\ bounded_string 50 s.
Proof.
  unfold String50.create. rewrite createString_accepts. split.
  - intros [[= ->] H]. auto.
  - intros [-> H]. auto.
Qed.

Lemma String50_create_ok (fieldName s : string) :
  bounded_string 50 s -> String50.create fieldName (JsStr s) = inl s.
Proof. intros H. apply String50_create_iff. auto. Qed.

(** X8: [toCustomerInfo] accepts exactly the customers whose first name,
    last name and email address are each a non-empty string of at most 50
    characters, and returns the three unchanged.  The email address is held
    to no other condition, and the VIP status is not looked at. *)
Theorem toCustomerInfo_accepts :
  forall (u : UnvalidatedCustomerInfo.t) (c : CustomerInfo.t),
    toCustomerInfo u = inl c
    <-> bounded_string 50 (UnvalidatedCustomerInfo.firstName u)
        /\ bounded_string 50 (UnvalidatedCustomerInfo.lastName u)
        /\ bounded_string 50 (UnvalidatedCustomerInfo.emailAddress u)
        /\ c = {| CustomerInfo.name :=
                    {| PersonalName.firstName := UnvalidatedCustomerInfo.firstName u;
                       PersonalName.lastName := UnvalidatedCustomerInfo.lastName u |};
                  CustomerInfo.emailAddress :=
                    UnvalidatedCustomerInfo.emailAddress u |}.
Proof.
  intros u c. unfold toCustomerInfo. split.
  - destruct (String50.create "FirstName" _) as [f|e] eqn:H1; [|discriminate].
    destruct (String50.create "LastName" _) as [l|e] eqn:H2; [|discriminate].
    destruct (String50.create "EmailAddress" _) as [m|e] eqn:H3; [|discriminate].
    apply String50_create_iff in H1 as [-> H1], H2 as [-> H2], H3 as [-> H3].
    intros [= <-]. auto.
  - intros (H1 & H2 & H3 & ->).
    rewrite (String50_create_ok "FirstName" _ H1),
      (String50_create_ok "LastName" _ H2), (String50_create_ok "EmailAddress" _ H3).
    reflexivity.
Qed.

(** X9: [toAddress] accepts exactly the checked addresses whose four lines
    and city are each a non-empty string of at most 50 characters and whose
    zip code contains five letters [d] in a row.  The address returned has
    these six fields unchanged, with the lines 2 to 4 always present; the
    state and the country are not looked at. *)
Theorem toAddress_accepts :
  forall (a : CheckedAddress) (address : Address.t),
    toAddress a = inl address
    <-> bounded_string 50 (UnvalidatedAddress.addressLine1 a)
        /\ bounded_string 50 (UnvalidatedAddress.addressLine2 a)
        /\ bounded_string 50 (UnvalidatedAddress.addressLine3 a)
        /\ bounded_string 50 (UnvalidatedAddress.addressLine4 a)
        /\ bounded_string 50 (UnvalidatedAddress.city a)
        /\ contains "ddddd" (UnvalidatedAddress.zipCode a) = true
        /\ address
           = {| Address.addressLine1 := UnvalidatedAddress.addressLine1 a;
                Address.addressLine2 := Some (UnvalidatedAddress.addressLine2 a);
                Address.addressLine3 := Some (UnvalidatedAddress.addressLine3 a);
                Address.addressLine4 := Some (UnvalidatedAddress.addressLine4 a);
                Address.city := UnvalidatedAddress.city a;
                Address.zipCode := UnvalidatedAddress.zipCode a |}.
Proof.
  intros a address. unfold toAddress. split.
  - destruct (String50.create "AddressLine1" _) as [l1|e] eqn:H1; [|discriminate].
    destruct (String50.create "AddressLine2" _) as [l2|e] eqn:H2; [|discriminate].
    destruct (String50.create "AddressLine3" _) as [l3|e] eqn:H3; [|discriminate].
    destruct (String50.create "AddressLine4"
                (JsStr (UnvalidatedAddress.addressLine4 a))) as [l4|e] eqn:H4;
      [|discriminate].
    destruct (String50.create "AddressLine4" (JsStr (UnvalidatedAddress.city a)))
      as [ct|e] eqn:H5; [|discriminate].
    destruct (ZipCode.create "AddressLine4" _) as [z|e] eqn:H6; [|discriminate].
    apply String50_create_iff in H1 as [-> H1], H2 as [-> H2], H3 as [-> H3],
          H4 as [-> H4], H5 as [-> H5].
    apply ZipCode_create_iff in H6 as [-> H6].
    intros [= <-]. auto 10.
  - intros (H1 & H2 & H3 & H4 & H5 & H6 & ->).
    rewrite (String50_create_ok "AddressLine1" _ H1),
      (String50_create_ok "AddressLine2" _ H2), (String50_create_ok "AddressLine3" _ H3),
      (String50_create_ok "AddressLine4" _ H4), (String50_create_ok "AddressLine4" _ H5).
    rewrite (proj2 (ZipCode_create_iff "AddressLine4" _ _) (conj eq_refl H6)).
    reflexivity.
Qed.

(* ================================================================== *)
(** ** Further properties: the validation of the lines and of the order *)
(* ================================================================== *)

Lemma OrderLineId_create_iff (fieldName s s' : string) :
  OrderLineId.create fieldName (JsStr s) = inl s' <-> s' = s /\ bounded_string 50 s.
Proof.
  unfold OrderLineId.create. rewrite createString_accepts. split.
  - intros [[= ->] H]. auto.
  - intros [-> H]. auto.
Qed.

Lemma ProductCode_create_value (fieldName code : string) (p : ProductCode.t) :
  ProductCode.create fieldName code = inl p -> ProductCode.value p = code.
Proof.
  intros H. apply ProductCode_create_iff in H as [(_ & _ & ->)|(_ & _ & ->)];
    reflexivity.
Qed.

Lemma OrderQuantity_create_value {fmt : NumberFormat} (fieldName : string)
  (p : ProductCode.t) (v : float) (q : OrderQuantity.t) :
  OrderQuantity.create fieldName p v = inl q -> OrderQuantity.value q = v.
Proof.
  destruct p as [w|g]; cbn [OrderQuantity.create].
  - unfold UnitQuantity.create.
    destruct (ConstrainedType.createInt fieldName 1 1000 v) as [u|e] eqn:Hc;
      [|discriminate].
    intros [= <-]. apply createInt_success in Hc as [-> _]; auto.
  - unfold KilogramQuantity.create.
    destruct (ConstrainedType.createDecimal fieldName 0.5 100 v) as [k|e] eqn:Hc;
      [|discriminate].
    intros [= <-]. apply createDecimal_success in Hc as [-> _]; auto.
Qed.

Section LineValidation.

Context {W : Type} {fmt : NumberFormat}.
Variable checkProductCodeExists : ProductCode.t -> M W bool.

(** One line, step by step: the line id, the format of the product code,
    the catalog, and the quantity. *)
Lemma toValidateOrderLine_run (line : UnvalidatedOrderLine.t) (w : W) :
  toValidateOrderLine checkProductCodeExists line w
  = match OrderLineId.create "OrderLineId"
            (JsStr (UnvalidatedOrderLine.orderLineId line)) with
    | inr e => (inr (createValidationError (msg e)), w)
    | inl orderLineId =>
    match ProductCode.create "ProductCode" (UnvalidatedOrderLine.productCode line) with
    | inr e => (inr (createValidationError (msg e)), w)
    | inl productCode =>
        (if fst (checkProductCodeExists productCode w) then
           match OrderQuantity.create "OrderQuantity" productCode
                   (UnvalidatedOrderLine.quantity line) with
           | inr e => inr (createValidationError (msg e))
           | inl quantity =>
               inl {| ValidatedOrderLine.orderLineId := orderLineId;
                      ValidatedOrderLine.productCode := productCode;
                      ValidatedOrderLine.quantity := quantity |}
           end
         else inr (createValidationError "Invalid: [object Object]"),
         snd (checkProductCodeExists productCode w))
    end end.
Proof.
  unfold toValidateOrderLine, toOrderLineId, toProductCode, toOrderQuantity, bind, ret.
  destruct (OrderLineId.create "OrderLineId" _) as [id|e]; [|reflexivity].
  destruct (ProductCode.create "ProductCode" _) as [p|e]; [|reflexivity].
  destruct (checkProductCodeExists p w) as [[|] w1]; cbn [fst snd]; [|reflexivity].
  destruct (OrderQuantity.create "OrderQuantity" p _); reflexivity.
Qed.

(** A validated line: the line was copied, the catalog was asked once, about
    the product code of the line, and it answered yes. *)
Lemma toValidateOrderLine_success (line : UnvalidatedOrderLine.t) (w : W)
  (v : ValidatedOrderLine.t) :
  fst (toValidateOrderLine checkProductCodeExists line w) = inl v ->
  line_validated line v
  /\ fst (checkProductCodeExists (ValidatedOrderLine.productCode v) w) = true
  /\ snd (toValidateOrderLine checkProductCodeExists line w)
     = snd (checkProductCodeExists (ValidatedOrderLine.productCode v) w).
Proof.
  rewrite toValidateOrderLine_run. unfold line_validated.
  destruct (OrderLineId.create "OrderLineId" _) as [id|e] eqn:Hid; [|discriminate].
  apply OrderLineId_create_iff in Hid as [-> _].
  destruct (ProductCode.create "ProductCode" _) as [p|e] eqn:Hp; [|discriminate].
  apply ProductCode_create_value in Hp. cbn [fst snd].
  destruct (fst (checkProductCodeExists p w)) eqn:Hcheck; [|discriminate].
  destruct (OrderQuantity.create "OrderQuantity" p
              (UnvalidatedOrderLine.quantity line)) as [q|e] eqn:Hq; [|discriminate].
  apply OrderQuantity_create_value in Hq.
  intros [= <-]. cbn. auto.
Qed.

(** The validated lines among the results keep their lines. *)
Lemma validated_lines_keep_lines (lines : list UnvalidatedOrderLine.t) (w : W)
  (validatedLines : list ValidatedOrderLine.t) :
  fst (mapM (toValidateOrderLine checkProductCodeExists) lines w)
  = map inl validatedLines ->
  Forall2 line_validated lines validatedLines.
Proof.
  revert w validatedLines. induction lines as [|line rest IH]; intros w validatedLines.
  - destruct validatedLines; [constructor | discriminate].
  - cbn [mapM]. unfold bind.
    pose proof (toValidateOrderLine_success line w) as Hline.
    destruct (toValidateOrderLine checkProductCodeExists line w) as [r w1].
    specialize (IH w1).
    destruct (mapM (toValidateOrderLine checkProductCodeExists) rest w1) as [rs w2].
    cbn [fst] in *. destruct validatedLines as [|v vs]; [discriminate|].
    cbn [map]. intros [= -> ->].
    destruct (Hline v eq_refl) as (Hsame & _).
    constructor; [exact Hsame | exact (IH vs eq_refl)].
Qed.

(** X10: [toValidateOrderLine] on one line.  A validated line carries the
    line id, the product code and the quantity of the line unchanged, and
    the catalog, asked once about that product code, answered yes.  A code
    of a recognised format that the catalog does not know makes the line a
    validation error whose message is [Invalid: [object Object]].  And when
    the line id or the format of the product code is refused, the catalog is
    not asked: the world is left as it was. *)
Theorem toValidateOrderLine_cases :
  forall (line : UnvalidatedOrderLine.t) (w : W),
    let run := toValidateOrderLine checkProductCodeExists line w in
    let idOk := bounded_string 50 (UnvalidatedOrderLine.orderLineId line) in
    let code := ProductCode.create "ProductCode" (UnvalidatedOrderLine.productCode line) in
    (forall v,
        fst run = inl v ->
        line_validated line v
        /\ fst (checkProductCodeExists (ValidatedOrderLine.productCode v) w) = true
        /\ snd run = snd (checkProductCodeExists (ValidatedOrderLine.productCode v) w))
    /\ (forall p,
          idOk -> code = inl p -> fst (checkProductCodeExists p w) = false ->
          run = (inr (createValidationError "Invalid: [object Object]"),
                 snd (checkProductCodeExists p w)))
    /\ (~ idOk \/ (exists e, code = inr e) ->
        snd run = w /\ exists e, fst run = inr e).
Proof.
  intros line w run idOk code. subst run idOk code. split; [|split].
  - intros v. apply toValidateOrderLine_success.
  - intros p Hid Hp Hcheck. rewrite toValidateOrderLine_run.
    rewrite (proj2 (OrderLineId_create_iff "OrderLineId" _ _) (conj eq_refl Hid)), Hp.
    rewrite Hcheck. reflexivity.
  - intros Hbad. rewrite toValidateOrderLine_run.
    destruct (OrderLineId.create "OrderLineId" _) as [id|e] eqn:Hid.
    + apply OrderLineId_create_iff in Hid as [_ Hid].
      destruct Hbad as [Hbad|[e He]]; [contradiction|].
      rewrite He. cbn. eauto.
    + cbn. eauto.
Qed.

End LineValidation.

Lemma toOrderId_success (orderIdStr : string) (orderId : OrderId.t) :
  toOrderId orderIdStr = inl orderId -> orderId = orderIdStr.
Proof.
  unfold toOrderId.
  destruct (OrderId.create "OrderId" (JsStr orderIdStr)) as [id|e] eqn:H;
    [|discriminate].
  unfold OrderId.create in H. apply createString_accepts in H as [[= ->] _].
  intros [= <-]. reflexivity.
Qed.

Lemma toAddress_zip (a : CheckedAddress) (address : Address.t) :
  toAddress a = inl address -> contains "ddddd" (UnvalidatedAddress.zipCode a) = true.
Proof.
  unfold toAddress.
  repeat (destruct (String50.create _ _); [|discriminate]).
  destruct (ZipCode.create "AddressLine4" _) as [z|e] eqn:H6; [|discriminate].
  apply ZipCode_create_iff in H6 as [_ H6]. intros _. exact H6.
Qed.

Section OrderValidation.

Context {W : Type} {fmt : NumberFormat}.
Variable checkProductCodeExists : ProductCode.t -> M W bool.
Variable checkAddressExists
  : UnvalidatedAddress.t -> M W (CheckedAddress + AddressValidationError).

Lemma toCheckedAddress_run (a : UnvalidatedAddress.t) (w : W) :
  toCheckedAddress checkAddressExists a w
  = (match fst (checkAddressExists a w) with
     | inr e => inr (createValidationError (msg e))
     | inl c => inl c
     end, snd (checkAddressExists a w)).
Proof.
  unfold toCheckedAddress, bind. destruct (checkAddressExists a w) as [[c|e] w1];
    reflexivity.
Qed.

(** What a validated order is made of. *)
Lemma validateOrder_success (unvalidatedOrder : UnvalidatedOrder.t) (w : W)
  (validatedOrder : ValidatedOrder.t) :
  let shippingCheck :=
    checkAddressExists (UnvalidatedOrder.shippingAddress unvalidatedOrder) w in
  let billingCheck :=
    checkAddressExists (UnvalidatedOrder.billingAddress unvalidatedOrder)
      (snd shippingCheck) in
  let lineRun :=
    mapM (toValidateOrderLine checkProductCodeExists)
      (UnvalidatedOrder.lines unvalidatedOrder) (snd billingCheck) in
  fst (validateOrder checkProductCodeExists checkAddressExists unvalidatedOrder w)
  = inl validatedOrder ->
  ValidatedOrder.orderId validatedOrder = UnvalidatedOrder.orderId unvalidatedOrder
  /\ toCustomerInfo (UnvalidatedOrder.customerInfo unvalidatedOrder)
     = inl (ValidatedOrder.customerInfo validatedOrder)
  /\ (exists checked,
        fst shippingCheck = inl checked
        /\ toAddress checked = inl (ValidatedOrder.shippingAddress validatedOrder))
  /\ (exists checked,
        fst billingCheck = inl checked
        /\ toAddress checked = inl (ValidatedOrder.billingAddress validatedOrder))
  /\ fst lineRun = map inl (ValidatedOrder.lines validatedOrder)
  /\ snd (validateOrder checkProductCodeExists checkAddressExists unvalidatedOrder w)
     = snd lineRun.
Proof.
  intros shippingCheck billingCheck lineRun.
  rewrite validateOrder_run. cbn zeta.
  destruct (toOrderId _) as [orderId|e] eqn:H1; [|discriminate].
  apply toOrderId_success in H1.
  destruct (toCustomerInfo _) as [customerInfo|e] eqn:H2; [|discriminate].
  rewrite !toCheckedAddress_run. cbn [fst snd]. fold shippingCheck.
  destruct (fst shippingCheck) as [cs|e] eqn:H3; [|discriminate].
  destruct (toAddress cs) as [sa|e] eqn:H4; [|discriminate].
  fold billingCheck.
  destruct (fst billingCheck) as [cb|e] eqn:H5; [|discriminate].
  destruct (toAddress cb) as [ba|e] eqn:H6; [|discriminate].
  fold lineRun.
  destruct (snd (splitErr (fst lineRun))) as [|e errs] eqn:H7; [|discriminate].
  cbn [fst snd]. intros [= <-]. cbn.
  apply splitErr_no_error in H7.
  repeat split; eauto.
Qed.

End OrderValidation.

(** X11: a validated order is the unvalidated order, checked and copied.
    Its order id is the id submitted; its customer info is what
    [toCustomerInfo] makes of the customer submitted; its shipping and
    billing addresses are what [toAddress] makes of the addresses the
    address check answered (the shipping address asked first, then the
    billing address); and its lines are the lines submitted, in the same
    number and order, each with its line id, product code and quantity. *)
Theorem validateOrder_frame :
  forall (W : Type) (fmt : NumberFormat)
         (checkProductCodeExists : ProductCode.t -> M W bool)
         (checkAddressExists
            : UnvalidatedAddress.t -> M W (CheckedAddress + AddressValidationError))
         (unvalidatedOrder : UnvalidatedOrder.t) (w : W)
         (validatedOrder : ValidatedOrder.t),
    let shippingCheck :=
      checkAddressExists (UnvalidatedOrder.shippingAddress unvalidatedOrder) w in
    let billingCheck :=
      checkAddressExists (UnvalidatedOrder.billingAddress unvalidatedOrder)
        (snd shippingCheck) in
    fst (validateOrder checkProductCodeExists checkAddressExists unvalidatedOrder w)
    = inl validatedOrder ->
    ValidatedOrder.orderId validatedOrder = UnvalidatedOrder.orderId unvalidatedOrder
    /\ toCustomerInfo (UnvalidatedOrder.customerInfo unvalidatedOrder)
       = inl (ValidatedOrder.customerInfo validatedOrder)
    /\ (exists checked,
          fst shippingCheck = inl checked
          /\ toAddress checked = inl (ValidatedOrder.shippingAddress validatedOrder))
    /\ (exists checked,
          fst billingCheck = inl checked
          /\ toAddress checked = inl (ValidatedOrder.billingAddress validatedOrder))
    /\ Forall2 line_validated (UnvalidatedOrder.lines unvalidatedOrder)
         (ValidatedOrder.lines validatedOrder).
Proof.
  intros W fmt checkProductCodeExists checkAddressExists unvalidatedOrder w
    validatedOrder shippingCheck billingCheck Hok.
  destruct (validateOrder_success checkProductCodeExists checkAddressExists
              unvalidatedOrder w validatedOrder Hok)
    as (Hid & Hcustomer & Hship & Hbill & Hlines & _).
  repeat split; try assumption.
  exact (validated_lines_keep_lines _ _ _ _ Hlines).
Qed.

(** X11 at work: the sample order with one line of ten widgets. *)
Lemma validateOrder_frame_witness :
  Forall2 line_validated [sample_line "line-1" "Wdddd" 10] [sample_validated_line].
Proof.
  apply (validateOrder_frame Log sample_format log_checkProduct log_checkAddress
           (sample_order "order-1" [sample_line "line-1" "Wdddd" 10]) []
           (validated_order [sample_validated_line])).
  reflexivity.
Defined.

(* ================================================================== *)
(** ** Further properties: the workflow and its calls *)
(* ================================================================== *)

(** The workflow, step by step. *)
Lemma placeOrder_run {W : Type} {fmt : NumberFormat}
  (checkProductExists : ProductCode.t -> M W bool)
  (checkAddressExists
     : UnvalidatedAddress.t -> M W (CheckedAddress + AddressValidationError))
  (getProductPrice : ProductCode.t -> M W Price.t)
  (createOrderAcknowledgmentLetter : PricedOrder.t -> M W HtmlString)
  (sendOrderAcknowledgment : OrderAcknowledgment.t -> M W SendResult)
  (unvalidatedOrder : UnvalidatedOrder.t) (w : W) :
  placeOrder checkProductExists checkAddressExists getProductPrice
    createOrderAcknowledgmentLetter sendOrderAcknowledgment unvalidatedOrder w
  = let validated := validateOrder checkProductExists checkAddressExists unvalidatedOrder w in
    match fst validated with
    | inr e => (inr e, snd validated)
    | inl validatedOrder =>
        let priced := priceOrder getProductPrice validatedOrder (snd validated) in
        match fst priced with
        | inr e => (inr e, snd priced)
        | inl pricedOrder =>
            let acknowledged :=
              acknowledgeOrder createOrderAcknowledgmentLetter
                sendOrderAcknowledgment pricedOrder (snd priced) in
            (inl (createEvents pricedOrder (fst acknowledged)), snd acknowledged)
        end
    end.
Proof.
  unfold placeOrder. unfold bind at 1.
  destruct (validateOrder _ _ _ w) as [[vo|e] w1]; cbn [fst snd]; [|reflexivity].
  unfold bind at 1. cbn zeta.
  destruct (priceOrder getProductPrice vo w1) as [[po|e] w2]; cbn [fst snd];
    [|reflexivity].
  unfold bind at 1. destruct (acknowledgeOrder _ _ po w2) as [ack w3]. reflexivity.
Qed.

(** X12: the workflow places no order whose shipping address, as the
    address check answers it, has a zip code made of digits only: whatever
    the rest of the order and the capabilities, the result is a validation
    error. *)
Theorem placeOrder_refuses_numeric_zip :
  forall (W : Type) (fmt : NumberFormat)
         (checkProductExists : ProductCode.t -> M W bool)
         (checkAddressExists
            : UnvalidatedAddress.t -> M W (CheckedAddress + AddressValidationError))
         (getProductPrice : ProductCode.t -> M W Price.t)
         (createOrderAcknowledgmentLetter : PricedOrder.t -> M W HtmlString)
         (sendOrderAcknowledgment : OrderAcknowledgment.t -> M W SendResult)
         (unvalidatedOrder : UnvalidatedOrder.t) (w : W),
    (forall checked,
        fst (checkAddressExists (UnvalidatedOrder.shippingAddress unvalidatedOrder) w)
        = inl checked ->
        digits_only (UnvalidatedAddress.zipCode checked) = true) ->
    exists e,
      fst (placeOrder checkProductExists checkAddressExists getProductPrice
             createOrderAcknowledgmentLetter sendOrderAcknowledgment unvalidatedOrder w)
      = inr e
      /\ errType e = Validation.
Proof.
  intros W fmt checkProductExists checkAddressExists getProductPrice
    createOrderAcknowledgmentLetter sendOrderAcknowledgment unvalidatedOrder w Hzip.
  rewrite placeOrder_run. cbn zeta.
  pose proof (validateOrder_validation checkProductExists checkAddressExists
                unvalidatedOrder w) as Hv.
  pose proof (validateOrder_success checkProductExists checkAddressExists
                unvalidatedOrder w) as Hok.
  destruct (fst (validateOrder checkProductExists checkAddressExists unvalidatedOrder w))
    as [vo|e].
  - exfalso. destruct (Hok vo eq_refl) as (_ & _ & (checked & Hc & Ha) & _).
    apply toAddress_zip in Ha.
    rewrite (digits_only_no_letter "dddd" _ "d" eq_refl (Hzip checked Hc)) in Ha.
    discriminate.
  - exists e. split; [reflexivity | exact Hv].
Qed.

(** X12 at work: an order for Springfield, IL 62704. *)
Lemma placeOrder_refuses_numeric_zip_witness :
  exists e,
    fst (@placeOrder Log sample_format log_checkProduct log_checkAddress (log_getPrice 5)
           log_createLetter (log_send true) numeric_zip_order [])
    = inr e
    /\ errType e = Validation.
Proof.
  apply (placeOrder_refuses_numeric_zip Log sample_format log_checkProduct
           log_checkAddress (log_getPrice 5) log_createLetter (log_send true)
           numeric_zip_order []).
  intros checked [= <-]. reflexivity.
Defined.

(** *** The calls a computation adds to the log *)

Lemma appends_ret {A : Type} (P : Call -> Prop) (a : A) : appends P (ret a).
Proof. intros log. exists []. rewrite app_nil_r. split; [reflexivity | constructor]. Qed.

Lemma appends_bind {A B : Type} (P : Call -> Prop) (c : M Log A) (k : A -> M Log B) :
  appends P c -> (forall a, appends P (k a)) -> appends P (bind c k).
Proof.
  intros Hc Hk log. unfold bind. destruct (Hc log) as (calls1 & H1 & HP1).
  destruct (c log) as [a log1]. cbn [snd] in H1. subst log1.
  destruct (Hk a (log ++ calls1)) as (calls2 & H2 & HP2).
  exists (calls1 ++ calls2). rewrite H2, app_assoc. split; [reflexivity|].
  apply Forall_app. auto.
Qed.

Lemma appends_mapM {A B : Type} (P : Call -> Prop) (f : A -> M Log B) (xs : list A) :
  (forall x, appends P (f x)) -> appends P (mapM f xs).
Proof.
  intros Hf. induction xs as [|x rest IH]; cbn [mapM]; [apply appends_ret|].
  apply appends_bind; [apply Hf|]. intros y.
  apply appends_bind; [exact IH|]. intros ys. apply appends_ret.
Qed.

Lemma appends_logged {A B : Type} (P : Call -> Prop) (mk : A -> Call) (f : A -> B)
  (a : A) :
  P (mk a) -> appends P (logged mk f a).
Proof.
  intros HP log. exists [mk a]. split; [reflexivity | constructor; [exact HP|constructor]].
Qed.

Ltac appends_step :=
  first
    [ apply appends_ret
    | apply appends_logged; reflexivity
    | apply appends_mapM; intros ?
    | apply appends_bind; [|intros ?]
    | match goal with
      | |- appends _ (match ?x with _ => _ end) => destruct x
      end ].

Section LoggedCalls.

Context {fmt : NumberFormat}.
Variable productExists : ProductCode.t -> bool.
Variable addressCheck : UnvalidatedAddress.t -> CheckedAddress + AddressValidationError.
Variable price : ProductCode.t -> Price.t.
Variable letterOf : PricedOrder.t -> HtmlString.
Variable sendResult : OrderAcknowledgment.t -> SendResult.

Lemma validateOrder_appends (unvalidatedOrder : UnvalidatedOrder.t) :
  appends not_acknowledgment
    (validateOrder (logged CallCheckProductCodeExists productExists)
       (logged CallCheckAddressExists addressCheck) unvalidatedOrder).
Proof.
  unfold validateOrder, toCheckedAddress, toValidateOrderLine, toProductCode.
  repeat appends_step.
Qed.

Lemma priceOrder_appends (validatedOrder : ValidatedOrder.t) :
  appends not_acknowledgment
    (priceOrder (logged CallGetProductPrice price) validatedOrder).
Proof.
  unfold priceOrder, toPricedOrderLine.
  repeat appends_step.
Qed.

(** Pricing the lines adds one price lookup per line, in the order of the
    lines. *)
Lemma price_lines_calls (lines : list ValidatedOrderLine.t) (log : Log) :
  snd (mapM (toPricedOrderLine (logged CallGetProductPrice price)) lines log)
  = log ++ map (fun line => CallGetProductPrice (ValidatedOrderLine.productCode line))
             lines.
Proof.
  revert log. induction lines as [|line rest IH]; intros log.
  - cbn. rewrite app_nil_r. reflexivity.
  - cbn [mapM map]. unfold bind, ret.
    pose proof (toPricedOrderLine_run (logged CallGetProductPrice price) line log) as Hl.
    destruct (toPricedOrderLine (logged CallGetProductPrice price) line log)
      as [r log1].
    injection Hl as _ Hw. cbn [logged snd] in Hw. subst log1.
    pose proof (IH (log ++ [CallGetProductPrice
                              (ValidatedOrderLine.productCode line)])) as IH'.
    destruct (mapM (toPricedOrderLine (logged CallGetProductPrice price)) rest _)
      as [rs log2].
    cbn [snd] in *. rewrite IH', <- app_assoc. reflexivity.
Qed.

(** Validating lines that all pass adds one catalog call per line, in the
    order of the lines, each about the product code of its line. *)
Lemma validate_lines_calls (lines : list UnvalidatedOrderLine.t) (log : Log)
  (validatedLines : list ValidatedOrderLine.t) :
  fst (mapM (toValidateOrderLine (logged CallCheckProductCodeExists productExists))
         lines log)
  = map inl validatedLines ->
  snd (mapM (toValidateOrderLine (logged CallCheckProductCodeExists productExists))
         lines log)
  = log ++ map (fun v => CallCheckProductCodeExists (ValidatedOrderLine.productCode v))
             validatedLines.
Proof.
  revert log validatedLines. induction lines as [|line rest IH]; intros log validatedLines.
  - destruct validatedLines; [|discriminate]. cbn. rewrite app_nil_r. reflexivity.
  - cbn [mapM]. unfold bind, ret.
    destruct (toValidateOrderLine (logged CallCheckProductCodeExists productExists)
                line log) as [r log1] eqn:Hrun.
    destruct (mapM (toValidateOrderLine
                      (logged CallCheckProductCodeExists productExists)) rest log1)
      as [rs log2] eqn:Hrest.
    cbn [fst snd]. destruct validatedLines as [|v vs]; [discriminate|].
    cbn [map]. intros [= Hr Hrs]. subst r rs.
    pose proof (toValidateOrderLine_success
                  (logged CallCheckProductCodeExists productExists) line log v) as Hl.
    rewrite Hrun in Hl. cbn [fst snd logged] in Hl.
    destruct (Hl eq_refl) as (_ & _ & Hw). subst log1.
    pose proof (IH (log ++ [CallCheckProductCodeExists
                              (ValidatedOrderLine.productCode v)]) vs) as IH'.
    rewrite Hrest in IH'. cbn [fst snd] in IH'.
    rewrite (IH' eq_refl), <- app_assoc. reflexivity.
Qed.

Lemma acknowledgeOrder_logged (pricedOrder : PricedOrder.t) (log : Log) :
  let acknowledgment :=
    {| OrderAcknowledgment.emailAddress :=
         CustomerInfo.emailAddress (PricedOrder.customerInfo pricedOrder);
       OrderAcknowledgment.letter := letterOf pricedOrder |} in
  acknowledgeOrder (logged CallCreateOrderAcknowledgmentLetter letterOf)
    (logged CallSendOrderAcknowledgment sendResult) pricedOrder log
  = (match sendResult acknowledgment with
     | Sent =>
         Some {| OrderAcknowledgmentSent.orderId := PricedOrder.orderId pricedOrder;
                 OrderAcknowledgmentSent.emailAddress :=
                   CustomerInfo.emailAddress (PricedOrder.customerInfo pricedOrder) |}
     | NotSent => None
     end,
     (log ++ [CallCreateOrderAcknowledgmentLetter pricedOrder])
     ++ [CallSendOrderAcknowledgment acknowledgment]).
Proof.
  cbn zeta. unfold acknowledgeOrder, bind, logged, ret.
  destruct (sendResult _); reflexivity.
Qed.

End LoggedCalls.

(** X13: [priceOrder] looks up the price of every line exactly once, in the
    order of the lines, whether or not the pricing of a line or the sum
    fails: with a price lookup that records its calls, the log grows by one
    lookup per line, each for the product code of its line. *)
Theorem priceOrder_looks_up_every_line :
  forall (fmt : NumberFormat) (price : ProductCode.t -> Price.t)
         (validatedOrder : ValidatedOrder.t) (log : Log),
    snd (priceOrder (logged CallGetProductPrice price) validatedOrder log)
    = log ++ map (fun line => CallGetProductPrice (ValidatedOrderLine.productCode line))
               (ValidatedOrder.lines validatedOrder).
Proof.
  intros fmt price validatedOrder log. rewrite priceOrder_run. cbn zeta. cbn [snd].
  apply price_lines_calls.
Qed.

(** X14: when [validateOrder] accepts an order, with capabilities that
    record their calls, it has made exactly these calls, in this order: the
    check of the shipping address, the check of the billing address, and one
    catalog call per line, about the product code of that line. *)
Theorem validateOrder_calls :
  forall (fmt : NumberFormat) (productExists : ProductCode.t -> bool)
         (addressCheck : UnvalidatedAddress.t -> CheckedAddress + AddressValidationError)
         (unvalidatedOrder : UnvalidatedOrder.t) (log : Log)
         (validatedOrder : ValidatedOrder.t),
    let run :=
      validateOrder (logged CallCheckProductCodeExists productExists)
        (logged CallCheckAddressExists addressCheck) unvalidatedOrder log in
    fst run = inl validatedOrder ->
    snd run
    = log
      ++ [CallCheckAddressExists (UnvalidatedOrder.shippingAddress unvalidatedOrder);
          CallCheckAddressExists (UnvalidatedOrder.billingAddress unvalidatedOrder)]
      ++ map (fun v => CallCheckProductCodeExists (ValidatedOrderLine.productCode v))
           (ValidatedOrder.lines validatedOrder).
Proof.
  intros fmt productExists addressCheck unvalidatedOrder log validatedOrder run Hok.
  destruct (validateOrder_success _ _ unvalidatedOrder log validatedOrder Hok)
    as (_ & _ & _ & _ & Hlines & Hworld).
  subst run. rewrite Hworld. cbn [logged snd] in *.
  rewrite (validate_lines_calls productExists _ _ _ Hlines).
  rewrite <- !app_assoc. reflexivity.
Qed.

(** X14 at work: the sample order with one line of ten widgets. *)
Lemma validateOrder_calls_witness :
  snd (@validateOrder Log sample_format log_checkProduct log_checkAddress
         (sample_order "order-1" [sample_line "line-1" "Wdddd" 10]) [])
  = [CallCheckAddressExists sample_address; CallCheckAddressExists sample_address;
     CallCheckProductCodeExists (ProductCode.Widget {| WidgetCode.code := "Wdddd" |})].
Proof.
  apply (validateOrder_calls sample_format (fun _ => true) (fun a => inl a)
           (sample_order "order-1" [sample_line "line-1" "Wdddd" 10]) []
           (validated_order [sample_validated_line])).
  reflexivity.
Defined.

(** X15: the acknowledgment is written and sent for placed orders only,
    once, and last.  With capabilities that record their calls: when the
    workflow returns an error, no letter was created and nothing was sent;
    when it returns events, the calls end with the creation of one letter
    for the priced order and one send, to the email address of the customer,
    of that letter; no other call of the workflow is a letter or a send; and
    the events are those of the priced order with the acknowledgment event
    exactly when the send answered [Sent]. *)
Theorem placeOrder_acknowledges_placed_orders_only :
  forall (fmt : NumberFormat) (productExists : ProductCode.t -> bool)
         (addressCheck : UnvalidatedAddress.t -> CheckedAddress + AddressValidationError)
         (price : ProductCode.t -> Price.t) (letterOf : PricedOrder.t -> HtmlString)
         (sendResult : OrderAcknowledgment.t -> SendResult)
         (unvalidatedOrder : UnvalidatedOrder.t) (log : Log),
    let run :=
      placeOrder (logged CallCheckProductCodeExists productExists)
        (logged CallCheckAddressExists addressCheck)
        (logged CallGetProductPrice price)
        (logged CallCreateOrderAcknowledgmentLetter letterOf)
        (logged CallSendOrderAcknowledgment sendResult) unvalidatedOrder log in
    match fst run with
    | inr _ => exists calls, snd run = log ++ calls /\ Forall not_acknowledgment calls
    | inl events =>
        exists calls pricedOrder,
          let acknowledgment :=
            {| OrderAcknowledgment.emailAddress :=
                 CustomerInfo.emailAddress (PricedOrder.customerInfo pricedOrder);
               OrderAcknowledgment.letter := letterOf pricedOrder |} in
          snd run
          = log ++ calls
            ++ [CallCreateOrderAcknowledgmentLetter pricedOrder;
                CallSendOrderAcknowledgment acknowledgment]
          /\ Forall not_acknowledgment calls
          /\ events
             = createEvents pricedOrder
                 match sendResult acknowledgment with
                 | Sent =>
                     Some {| OrderAcknowledgmentSent.orderId :=
                               PricedOrder.orderId pricedOrder;
                             OrderAcknowledgmentSent.emailAddress :=
                               CustomerInfo.emailAddress
                                 (PricedOrder.customerInfo pricedOrder) |}
                 | NotSent => None
                 end
    end.
Proof.
  intros fmt productExists addressCheck price letterOf sendResult unvalidatedOrder log run.
  subst run. rewrite placeOrder_run. cbn zeta.
  destruct (validateOrder_appends productExists addressCheck unvalidatedOrder log)
    as (calls1 & H1 & HP1).
  destruct (validateOrder _ _ unvalidatedOrder log) as [[vo|e] log1];
    cbn [fst snd] in *; subst log1; [|eauto].
  destruct (priceOrder_appends price vo (log ++ calls1)) as (calls2 & H2 & HP2).
  destruct (priceOrder (logged CallGetProductPrice price) vo (log ++ calls1))
    as [[po|e] log2];
    cbn [fst snd] in *; subst log2.
  - rewrite acknowledgeOrder_logged. cbn [fst snd].
    exists (calls1 ++ calls2), po. cbn zeta.
    split; [rewrite <- !app_assoc; reflexivity|].
    split; [apply Forall_app; auto | reflexivity].
  - exists (calls1 ++ calls2). rewrite app_assoc.
    split; [reflexivity | apply Forall_app; auto].
Qed.

(* ================================================================== *)
(** ** Further properties: what is reported, and what is placed *)
(* ================================================================== *)

Lemma createString_too_long (fieldName : string) (maxLen : nat) (s : string) :
  (maxLen < String.length s)%nat ->
  ConstrainedType.createString fieldName maxLen (JsStr s)
  = inr {| errType := TooLong;
           msg := (fieldName ++ " must not be more than " ++ nat_toString maxLen
                   ++ " chars")%string |}.
Proof.
  intros Hlen. unfold ConstrainedType.createString.
  destruct s as [|c s]; [inversion Hlen|].
  cbn [ConstrainedType.isEmptyString includes_null_undefined_empty chars].
  apply Nat.ltb_lt in Hlen. rewrite Hlen. reflexivity.
Qed.

Lemma ZipCode_create_refused (fieldName zip : string) :
  contains "ddddd" zip = false ->
  exists tag,
    ZipCode.create fieldName (JsStr zip)
    = inr {| errType := tag; msg := (zip ++ ": Must not be null or empty")%string |}.
Proof.
  intros Hno. unfold ZipCode.create, ConstrainedType.createLike.
  destruct zip as [|c zip]; [eexists; reflexivity|].
  cbn [ConstrainedType.isEmptyString includes_null_undefined_empty].
  rewrite zip_pattern_search. cbn [repeat_char]. rewrite Hno. eexists. reflexivity.
Qed.

(** X16: what [toAddress] reports about the city and the zip code, for an
    address whose four lines pass.  A city that is empty or longer than 50
    characters is reported under the field name [AddressLine4]; and a zip
    code that is refused, empty or not, is reported by the message
    [<zip>: Must not be null or empty]. *)
Theorem toAddress_city_and_zip_messages :
  forall a : CheckedAddress,
    bounded_string 50 (UnvalidatedAddress.addressLine1 a) ->
    bounded_string 50 (UnvalidatedAddress.addressLine2 a) ->
    bounded_string 50 (UnvalidatedAddress.addressLine3 a) ->
    bounded_string 50 (UnvalidatedAddress.addressLine4 a) ->
    (UnvalidatedAddress.city a = EmptyString ->
     toAddress a
     = inr (createValidationError "AddressLine4 must not be null or undefined or empty"))
    /\ ((50 < String.length (UnvalidatedAddress.city a))%nat ->
        toAddress a
        = inr (createValidationError "AddressLine4 must not be more than 50 chars"))
    /\ (bounded_string 50 (UnvalidatedAddress.city a) ->
        contains "ddddd" (UnvalidatedAddress.zipCode a) = false ->
        toAddress a
        = inr (createValidationError
                 (UnvalidatedAddress.zipCode a ++ ": Must not be null or empty"))).
Proof.
  intros a H1 H2 H3 H4. unfold toAddress.
  rewrite (String50_create_ok "AddressLine1" _ H1),
    (String50_create_ok "AddressLine2" _ H2), (String50_create_ok "AddressLine3" _ H3),
    (String50_create_ok "AddressLine4" _ H4).
  split; [|split].
  - intros ->. reflexivity.
  - intros Hlen. unfold String50.create.
    rewrite (createString_too_long "AddressLine4" 50 _ Hlen). reflexivity.
  - intros H5 Hzip. rewrite (String50_create_ok "AddressLine4" _ H5).
    destruct (ZipCode_create_refused "AddressLine4" _ Hzip) as [tag ->]. reflexivity.
Qed.

(** X16 at work: Springfield, IL 62704. *)
Lemma toAddress_city_and_zip_messages_witness :
  toAddress numeric_zip_address
  = inr (createValidationError "62704: Must not be null or empty").
Proof.
  assert (Hb : forall s, String.eqb s EmptyString = false ->
                         (String.length s <=? 50)%nat = true -> bounded_string 50 s).
  { intros s Hne Hlen. split.
    - intros ->. discriminate.
    - apply Nat.leb_le. exact Hlen. }
  destruct (toAddress_city_and_zip_messages numeric_zip_address
              (Hb "1 Main Street"%string eq_refl eq_refl)
              (Hb "Floor 2"%string eq_refl eq_refl)
              (Hb "Suite 3"%string eq_refl eq_refl)
              (Hb "Desk 4"%string eq_refl eq_refl)) as (_ & _ & Hzip).
  exact (Hzip (Hb "Springfield"%string eq_refl eq_refl) eq_refl).
Defined.

Lemma Forall2_compose {A B C : Type} (R : A -> B -> Prop) (S : B -> C -> Prop)
  (T : A -> C -> Prop) :
  (forall a b c, R a b -> S b c -> T a c) ->
  forall xs ys zs, Forall2 R xs ys -> Forall2 S ys zs -> Forall2 T xs zs.
Proof.
  intros H xs ys zs HR. revert zs. induction HR as [|a b xs ys Hab _ IH]; intros zs HS.
  - inversion HS. constructor.
  - inversion HS as [|b' c ys' zs' Hbc Hrest]; subst. constructor; eauto.
Qed.

(** What a priced order is made of. *)
Lemma priceOrder_success {W : Type} {fmt : NumberFormat}
  (getProductPrice : ProductCode.t -> M W Price.t) (validatedOrder : ValidatedOrder.t)
  (w : W) (pricedOrder : PricedOrder.t) :
  fst (priceOrder getProductPrice validatedOrder w) = inl pricedOrder ->
  PricedOrder.orderId pricedOrder = ValidatedOrder.orderId validatedOrder
  /\ Forall2 same_line (ValidatedOrder.lines validatedOrder)
       (PricedOrder.lines pricedOrder).
Proof.
  rewrite priceOrder_run. cbn zeta. cbn [fst].
  destruct (snd (splitErr (fst (mapM (toPricedOrderLine getProductPrice)
                                  (ValidatedOrder.lines validatedOrder) w))))
    as [|e errs] eqn:Herrs; [|discriminate].
  destruct (BillingAmount.create _) as [amount|e]; [|discriminate].
  intros [= <-]. cbn. split; [reflexivity|].
  apply splitErr_no_error in Herrs.
  exact (proj1 (priced_lines_keep_lines _ _ _ _ Herrs)).
Qed.

(** X17: what the workflow places is what was submitted.  When [placeOrder]
    returns events, one of them is the order-placed event of a priced order
    with the order id submitted and with the lines submitted, in the same
    number and order, each with its line id, product code and quantity. *)
Theorem placeOrder_places_the_order_submitted :
  forall (W : Type) (fmt : NumberFormat)
         (checkProductExists : ProductCode.t -> M W bool)
         (checkAddressExists
            : UnvalidatedAddress.t -> M W (CheckedAddress + AddressValidationError))
         (getProductPrice : ProductCode.t -> M W Price.t)
         (createOrderAcknowledgmentLetter : PricedOrder.t -> M W HtmlString)
         (sendOrderAcknowledgment : OrderAcknowledgment.t -> M W SendResult)
         (unvalidatedOrder : UnvalidatedOrder.t) (w : W)
         (events : list PlaceOrderEvent),
    fst (placeOrder checkProductExists checkAddressExists getProductPrice
           createOrderAcknowledgmentLetter sendOrderAcknowledgment unvalidatedOrder w)
    = inl events ->
    exists pricedOrder,
      In (EvOrderPlaced pricedOrder) events
      /\ PricedOrder.orderId pricedOrder = UnvalidatedOrder.orderId unvalidatedOrder
      /\ Forall2 line_placed (UnvalidatedOrder.lines unvalidatedOrder)
           (PricedOrder.lines pricedOrder).
Proof.
  intros W fmt checkProductExists checkAddressExists getProductPrice
    createOrderAcknowledgmentLetter sendOrderAcknowledgment unvalidatedOrder w events.
  rewrite placeOrder_run. cbn zeta.
  pose proof (validateOrder_success checkProductExists checkAddressExists
                unvalidatedOrder w) as Hv.
  destruct (fst (validateOrder checkProductExists checkAddressExists unvalidatedOrder w))
    as [vo|e]; [|discriminate].
  destruct (Hv vo eq_refl) as (Hid & _ & _ & _ & Hlines & _).
  apply validated_lines_keep_lines in Hlines.
  pose proof (priceOrder_success getProductPrice vo
                (snd (validateOrder checkProductExists checkAddressExists
                        unvalidatedOrder w))) as Hp.
  destruct (fst (priceOrder getProductPrice vo _)) as [po|e]; [|discriminate].
  destruct (Hp po eq_refl) as [Hpid Hplines].
  cbn [fst]. intros [= <-]. exists po. split; [|split].
  - unfold createEvents. apply in_or_app. right. left. reflexivity.
  - congruence.
  - apply (Forall2_compose line_validated same_line line_placed) with (ys := ValidatedOrder.lines vo);
      [|exact Hlines | exact Hplines].
    intros l v p (Ha & Hb & Hc) (Ha' & Hb' & Hc'). unfold line_placed.
    rewrite Ha', Hb', Hc'. auto.
Qed.

(** X17 at work: the sample order with one line of ten widgets at 5 each. *)
Lemma placeOrder_places_the_order_submitted_witness :
  exists pricedOrder,
    In (EvOrderPlaced pricedOrder)
      (createEvents
         {| PricedOrder.orderId := "order-1";
            PricedOrder.customerInfo := sample_customerInfo;
            PricedOrder.shippingAddress := sample_validated_address;
            PricedOrder.billingAddress := sample_validated_address;
            PricedOrder.amountToBill := 50;
            PricedOrder.lines :=
              [{| PricedOrderLine.orderLineId := "line-1";
                  PricedOrderLine.productCode :=
                    ProductCode.Widget {| WidgetCode.code := "Wdddd" |};
                  PricedOrderLine.quantity :=
                    OrderQuantity.Unit {| UnitQuantity.quantity := 10 |};
                  PricedOrderLine.linePrice := 50 |}] |}
         None)
    /\ PricedOrder.orderId pricedOrder = "order-1"%string
    /\ Forall2 line_placed [sample_line "line-1" "Wdddd" 10]
         (PricedOrder.lines pricedOrder).
Proof.
  apply (placeOrder_places_the_order_submitted Log sample_format log_checkProduct
           log_checkAddress (log_getPrice 5) log_createLetter (log_send false)
           (sample_order "order-1" [sample_line "line-1" "Wdddd" 10]) []).
  reflexivity.
Defined.
